(** * Water-safety pipeline: the serial reader of [backend/serial_reader.py]

    A shallow embedding of the line parser, the reader worker, the actuator
    latch and the prediction worker, with the properties the design document
    states about them.

    Python values are modelled as follows.
    - [str] is [string], over the ASCII characters: a character above 127
      counts as no digit, no letter and no blank.
    - [float] is IEEE binary64, as [spec_float] with [prec = 53] and
      [emax = 1024]; [float(s)] rounds the decimal to the nearest double.
    - an exception is a value of [exn]; code that can raise returns a
      [result], and [try ... except] is [try_except].
    - a queue is the list of the items put on it, oldest first; the serial
      port is the list of the lines written to it, and an open port takes
      every write; [print] and [time.sleep] leave no trace. *)

From Stdlib Require Import String Ascii List ZArith Bool Lia Arith.
From Stdlib Require Import DecimalString.
From Stdlib Require Import Floats.SpecFloat.
Import ListNotations.
Open Scope string_scope.
Open Scope list_scope.

Set Implicit Arguments.

(* ================================================================== *)
(** * Python: exceptions and results *)
(* ================================================================== *)

Module Py.

(** The exception classes the pipeline can meet. The last two derive from
    [BaseException] only: [except Exception] lets them through. *)
Inductive exn : Type :=
| ValueError | IndexError | KeyError | TypeError | AttributeError
| SerialException | Timeout | ConnectionError | JSONDecodeError | QueueEmpty
| KeyboardInterrupt | SystemExit.

Definition exn_eqb (a b : exn) : bool :=
  match a, b with
  | ValueError, ValueError | IndexError, IndexError | KeyError, KeyError
  | TypeError, TypeError | AttributeError, AttributeError
  | SerialException, SerialException | Timeout, Timeout
  | ConnectionError, ConnectionError | JSONDecodeError, JSONDecodeError
  | QueueEmpty, QueueEmpty | KeyboardInterrupt, KeyboardInterrupt
  | SystemExit, SystemExit => true
  | _, _ => false
  end.

(** What an [except] clause names: one class, or [Exception]. *)
Inductive clause : Type :=
| Only (e : exn)
| Exception.

Definition is_Exception (e : exn) : bool :=
  match e with
  | KeyboardInterrupt | SystemExit => false
  | _ => true
  end.

Definition matches (c : clause) (e : exn) : bool :=
  match c with
  | Only e' => exn_eqb e' e
  | Exception => is_Exception e
  end.

Definition catches (cs : list clause) (e : exn) : bool :=
  existsb (fun c => matches c e) cs.

Inductive result (A : Type) : Type :=
| Ok (a : A)
| Raise (e : exn).
Arguments Ok {A} a.
Arguments Raise {A} e.

Definition bind {A B} (m : result A) (k : A -> result B) : result B :=
  match m with
  | Ok a => k a
  | Raise e => Raise e
  end.

(** [try: body  except cs1: h1  except cs2: h2 ...]: the first clause that
    matches the exception handles it; with none, the exception goes on. *)
Fixpoint handle {A} (e : exn) (hs : list (list clause * result A)) : result A :=
  match hs with
  | [] => Raise e
  | (cs, h) :: hs' => if catches cs e then h else handle e hs'
  end.

Definition try_except {A} (body : result A)
  (hs : list (list clause * result A)) : result A :=
  match body with
  | Ok a => Ok a
  | Raise e => handle e hs
  end.

(** [l[i]] on a list, for [i >= 0]. *)
Definition list_getitem {A} (l : list A) (i : nat) : result A :=
  match nth_error l i with
  | Some a => Ok a
  | None => Raise IndexError
  end.

End Py.

Import Py.

Declare Scope py_scope.
Delimit Scope py_scope with py.
Notation "x <- m ;; k" := (Py.bind m (fun x => k))
  (at level 61, m at next level, right associativity) : py_scope.
Open Scope py_scope.

(* ================================================================== *)
(** * Python: strings *)
(* ================================================================== *)

Module Str.

Definition code (c : ascii) : nat := nat_of_ascii c.

Definition is_digit (c : ascii) : bool :=
  (48 <=? code c)%nat && (code c <=? 57)%nat.

(** [str.isspace] on one ASCII character: tab, line feed, vertical tab, form
    feed, carriage return, the four separators 28..31 and the space. *)
Definition is_space (c : ascii) : bool :=
  ((9 <=? code c)%nat && (code c <=? 13)%nat)
  || ((28 <=? code c)%nat && (code c <=? 32)%nat).

Definition is_lower (c : ascii) : bool :=
  (97 <=? code c)%nat && (code c <=? 122)%nat.

Definition upper_char (c : ascii) : ascii :=
  if is_lower c then ascii_of_nat (code c - 32) else c.

Definition is_upper (c : ascii) : bool :=
  (65 <=? code c)%nat && (code c <=? 90)%nat.

Definition lower_char (c : ascii) : ascii :=
  if is_upper c then ascii_of_nat (code c + 32) else c.

(** [s.upper()] *)
Fixpoint upper (s : string) : string :=
  match s with
  | EmptyString => EmptyString
  | String c r => String (upper_char c) (upper r)
  end.

(** [s.lower()] *)
Fixpoint lower (s : string) : string :=
  match s with
  | EmptyString => EmptyString
  | String c r => String (lower_char c) (lower r)
  end.

(** [s.split(sep)] for a one-character separator: never empty. *)
Fixpoint split (sep : ascii) (s : string) : list string :=
  match s with
  | EmptyString => [EmptyString]
  | String c r =>
      if Ascii.eqb c sep then EmptyString :: split sep r
      else match split sep r with
           | h :: t => String c h :: t
           | [] => [String c EmptyString]
           end
  end.

(** Blanks, as [p] knows them, are dropped at both ends. *)
Fixpoint lstrip_with (p : ascii -> bool) (s : string) : string :=
  match s with
  | EmptyString => EmptyString
  | String c r => if p c then lstrip_with p r else s
  end.

Fixpoint rstrip_with (p : ascii -> bool) (s : string) : string :=
  match s with
  | EmptyString => EmptyString
  | String c r =>
      match rstrip_with p r with
      | EmptyString => if p c then EmptyString else String c EmptyString
      | r' => String c r'
      end
  end.

Definition strip_with (p : ascii -> bool) (s : string) : string :=
  rstrip_with p (lstrip_with p s).

(** [s.strip()] *)
Definition strip (s : string) : string := strip_with is_space s.

(** [s[:n]] *)
Fixpoint take (n : nat) (s : string) : string :=
  match n, s with
  | O, _ => EmptyString
  | _, EmptyString => EmptyString
  | S n', String c r => String c (take n' r)
  end.

(** [needle in hay]: [needle] occurs in [hay] as a contiguous substring. *)
Fixpoint contains (needle hay : string) : bool :=
  String.prefix needle hay
  || match hay with
     | EmptyString => false
     | String _ r => contains needle r
     end.

Definition is_empty (s : string) : bool :=
  match s with EmptyString => true | _ => false end.

End Str.

(* ================================================================== *)
(** * Python: floats *)
(* ================================================================== *)

Module Float.

Definition prec : Z := 53.
Definition emax : Z := 1024.

Definition float : Type := spec_float.

(** The double of an integer literal such as [0], [100] or [-10]. *)
Definition of_int (z : Z) : float := binary_normalize prec emax z 0 false.

(** [x <= y]; false as soon as either side is NaN. *)
Definition le (x y : float) : bool := SFleb x y.

(** [(-1)^neg * m * 10^e] rounded to the nearest double, ties to even:
    an integer is rounded as it is, a quotient through the division's
    quotient and the location of its remainder. *)
Definition of_decimal (neg : bool) (m : Z) (e : Z) : float :=
  match m with
  | Zpos p =>
      if (0 <=? e)%Z then
        match (Zpos p * 10 ^ e)%Z with
        | Zpos q => binary_round prec emax neg q 0
        | _ => S754_zero neg
        end
      else
        let '(q, e', l) :=
          SFdiv_core_binary prec emax (Zpos p) 0 (10 ^ (- e))%Z 0 in
        binary_round_aux prec emax neg q e' l
  | _ => S754_zero neg
  end.

(** Digits are read left to right into a value and a count. *)
Fixpoint read_digits (s : string) (acc : Z) (n : Z) : Z * Z * string :=
  match s with
  | String c r =>
      if Str.is_digit c
      then read_digits r (10 * acc + (Z.of_nat (Str.code c) - 48))%Z (n + 1)%Z
      else (acc, n, s)
  | EmptyString => (acc, n, s)
  end.

(** An underscore may stand between two digits and nowhere else; the
    underscores are removed before the number is read. [prev] is the
    character before [s]. *)
Fixpoint drop_underscores (prev : ascii) (s : string) : option string :=
  match s with
  | EmptyString => if Ascii.eqb prev "_" then None else Some EmptyString
  | String c r =>
      if Ascii.eqb c "_" then
        if Str.is_digit prev then drop_underscores c r else None
      else if Ascii.eqb prev "_" && negb (Str.is_digit c) then None
      else option_map (String c) (drop_underscores c r)
  end.

Definition read_sign (s : string) : bool * string :=
  match s with
  | String "-" r => (true, r)
  | String "+" r => (false, r)
  | _ => (false, s)
  end.

(** [digits [. digits] [(e|E) [sign] digits]] with a digit in the mantissa:
    the mantissa as an integer and the power of ten. *)
Definition read_decimal (s : string) : option (Z * Z) :=
  let '(i, ni, r1) := read_digits s 0 0 in
  let '(m, nf, r2) :=
    match r1 with
    | String "." r => read_digits r i 0
    | _ => (i, 0%Z, r1)
    end in
  if (ni + nf =? 0)%Z then None
  else match r2 with
       | EmptyString => Some (m, (- nf)%Z)
       | String c r3 =>
           if Ascii.eqb c "e" || Ascii.eqb c "E" then
             let '(sg, r4) := read_sign r3 in
             let '(x, nx, r5) := read_digits r4 0 0 in
             if (nx =? 0)%Z || negb (Str.is_empty r5) then None
             else Some (m, ((if sg then - x else x) - nf)%Z)
           else None
       end.

(** The blanks [float] drops are C's: tab to carriage return, and the
    space; not the separators 28..31 that [str.strip] drops too. *)
Definition is_blank (c : ascii) : bool :=
  ((9 <=? Str.code c)%nat && (Str.code c <=? 13)%nat)
  || (Str.code c =? 32)%nat.

(** [float(s)] for a [str]: blanks at both ends are dropped, underscores
    between digits are removed, then come a sign and [inf], [infinity],
    [nan] (in any case) or a decimal number; anything else is a
    [ValueError]. *)
Definition of_str (s : string) : result float :=
  match drop_underscores zero (Str.strip_with is_blank s) with
  | None => Raise ValueError
  | Some t =>
      let '(neg, body) := read_sign t in
      let w := Str.lower body in
      if String.eqb w "inf" || String.eqb w "infinity" then Ok (S754_infinity neg)
      else if String.eqb w "nan" then Ok S754_nan
      else match read_decimal body with
           | Some (m, e) => Ok (of_decimal neg m e)
           | None => Raise ValueError
           end
  end.

End Float.


(* ================================================================== *)
(** * The line parser *)
(* ================================================================== *)

(** The dict [parse_sensor_line] returns. *)
Record Reading : Type := {
  turbidity : Float.float;
  tds : Float.float;
  ph : Float.float;
  temperature : Float.float
}.

(** [lo <= x <= hi] with integer bounds. *)
Definition between (lo : Z) (x : Float.float) (hi : Z) : bool :=
  Float.le (Float.of_int lo) x && Float.le x (Float.of_int hi).

Definition parse_sensor_line (line : string) : result (option Reading) :=
  try_except
    (let values := Str.split "," line in
     if negb (length values =? 4)%nat then Ok None
     else
       v0 <- list_getitem values 0 ;;
       turbidity <- Float.of_str v0 ;;
       v1 <- list_getitem values 1 ;;
       tds <- Float.of_str v1 ;;
       v2 <- list_getitem values 2 ;;
       ph <- Float.of_str v2 ;;
       v3 <- list_getitem values 3 ;;
       temp <- Float.of_str v3 ;;
       if negb (between 0 turbidity 100) then Ok None
       else if negb (between 0 tds 2000) then Ok None
       else if negb (between 0 ph 14) then Ok None
       else if negb (between (-10) temp 100) then Ok None
       else Ok (Some {| turbidity := turbidity; tds := tds; ph := ph;
                        temperature := temp |}))
    [ ([Only ValueError; Only IndexError], Ok None);
      ([Exception], Ok None) ].

(* ================================================================== *)
(** * Thread 1: the reader *)
(* ================================================================== *)

Definition READINGS_BUFFER : nat := 5.

(** [sensor_data_with_time]: the reading and its ['time'] stamp. *)
Record TimedReading : Type := {
  values : Reading;
  time : string
}.

(** What is put on [prediction_queue]: the keys ['data'], ['count'] and
    ['time'] of the source's dict. *)
Record BatchItem : Type := {
  data : TimedReading;
  count : nat;
  batch_time : string
}.

(** The reader's two locals and, for each queue, the items put on it so
    far, oldest first (the consumers run in other threads). *)
Record Reader : Type := {
  reading_count : nat;
  sensor_buffer : list TimedReading;
  instant_update_queue : list TimedReading;
  prediction_queue : list BatchItem
}.

Definition reader_start : Reader :=
  {| reading_count := 0; sensor_buffer := [];
     instant_update_queue := []; prediction_queue := [] |}.

(** What one turn of the loop meets at the port. *)
Inductive poll : Type :=
| Idle                                  (* [in_waiting] is 0 *)
| PortError                             (* the port raises: caught, logged *)
| Line (raw : string) (now : string).   (* the decoded line and the clock *)

(** The part of the loop body that handles an accepted reading. *)
Definition accept_reading (st : Reader) (sensor_data : Reading)
  (timestamp : string) : Reader :=
  let reading_count := S (reading_count st) in
  let sensor_data_with_time :=
    {| values := sensor_data; time := timestamp |} in
  let instant := instant_update_queue st ++ [sensor_data_with_time] in
  let sensor_buffer := sensor_buffer st ++ [sensor_data_with_time] in
  if (READINGS_BUFFER <=? length sensor_buffer)%nat then
    {| reading_count := reading_count;
       sensor_buffer := [];
       instant_update_queue := instant;
       prediction_queue :=
         prediction_queue st ++
         [ {| data := last sensor_buffer sensor_data_with_time;
              count := reading_count;
              batch_time := timestamp |} ] |}
  else
    {| reading_count := reading_count;
       sensor_buffer := sensor_buffer;
       instant_update_queue := instant;
       prediction_queue := prediction_queue st |}.

(** One turn of the [while] loop. *)
Definition reader_iteration (st : Reader) (p : poll) : Reader :=
  match p with
  | Idle => st
  | PortError => st
  | Line raw now =>
      let line := Str.strip raw in
      if Str.is_empty line then st
      else match parse_sensor_line line with
           | Ok (Some sensor_data) => accept_reading st sensor_data now
           | _ => st
           end
  end.

Definition arduino_reader_thread (polls : list poll) : Reader :=
  fold_left reader_iteration polls reader_start.

(** The readings a run accepts, in order. *)
Definition accepted_of (p : poll) : list TimedReading :=
  match p with
  | Line raw now =>
      let line := Str.strip raw in
      if Str.is_empty line then []
      else match parse_sensor_line line with
           | Ok (Some r) => [ {| values := r; time := now |} ]
           | _ => []
           end
  | _ => []
  end.

Definition accepted (polls : list poll) : list TimedReading :=
  flat_map accepted_of polls.

(* ================================================================== *)
(** * Python: decoded JSON values *)
(* ================================================================== *)

Module Json.

(** What [response.json()] can return. A dict keeps its pairs in order; the
    first pair with a key is the one a lookup finds. *)
#[warnings="-register-all"]
Inductive json : Type :=
| JNone
| JBool (b : bool)
| JInt (z : Z)
| JFloat (f : Float.float)
| JStr (s : string)
| JList (l : list json)
| JDict (d : list (string * json)).

Fixpoint lookup (k : string) (d : list (string * json)) : option json :=
  match d with
  | [] => None
  | (k', v) :: d' => if String.eqb k k' then Some v else lookup k d'
  end.

(** [bool(v)] *)
Definition truthy (v : json) : bool :=
  match v with
  | JNone => false
  | JBool b => b
  | JInt z => negb (z =? 0)%Z
  | JFloat (S754_zero _) => false
  | JFloat _ => true
  | JStr s => negb (Str.is_empty s)
  | JList l => match l with [] => false | _ => true end
  | JDict d => match d with [] => false | _ => true end
  end.

(** [v == s] for a [str] literal [s] *)
Definition eq_str (v : json) (s : string) : bool :=
  match v with
  | JStr s' => String.eqb s' s
  | _ => false
  end.

(** [k in v] for a [str] literal [k] *)
Definition contains (k : string) (v : json) : result bool :=
  match v with
  | JDict d => Ok (match lookup k d with Some _ => true | None => false end)
  | JList l => Ok (existsb (fun x => eq_str x k) l)
  | JStr s => Ok (Str.contains k s)
  | _ => Raise TypeError
  end.

(** [v[k]] for a [str] literal [k] *)
Definition getitem (v : json) (k : string) : result json :=
  match v with
  | JDict d => match lookup k d with
               | Some x => Ok x
               | None => Raise KeyError
               end
  | _ => Raise TypeError
  end.

(** [v[i]] for an [int] literal [i >= 0] *)
Definition getitem_int (v : json) (i : nat) : result json :=
  match v with
  | JList l => list_getitem l i
  | JStr s => match String.get i s with
              | Some c => Ok (JStr (String c EmptyString))
              | None => Raise IndexError
              end
  | JDict _ => Raise KeyError
  | _ => Raise TypeError
  end.

(** [v[:n]] *)
Definition slice_to (n : nat) (v : json) : result json :=
  match v with
  | JStr s => Ok (JStr (Str.take n s))
  | JList l => Ok (JList (firstn n l))
  | _ => Raise TypeError
  end.

(** [v.get(k)] and [v.get(k, default)] *)
Definition get (v : json) (k : string) (default : json) : result json :=
  match v with
  | JDict d => Ok (match lookup k d with Some x => x | None => default end)
  | _ => Raise AttributeError
  end.

(** [len(v)] *)
Definition len (v : json) : result nat :=
  match v with
  | JStr s => Ok (String.length s)
  | JList l => Ok (length l)
  | JDict d => Ok (length d)
  | _ => Raise TypeError
  end.

Fixpoint chars (s : string) : list json :=
  match s with
  | EmptyString => []
  | String c r => JStr (String c EmptyString) :: chars r
  end.

(** The items [for x in v] goes through. *)
Definition iter (v : json) : result (list json) :=
  match v with
  | JList l => Ok l
  | JStr s => Ok (chars s)
  | JDict d => Ok (map (fun kv => JStr (fst kv)) d)
  | _ => Raise TypeError
  end.

(** [for x in xs: body x] *)
Fixpoint for_each (xs : list json) (body : json -> result unit) : result unit :=
  match xs with
  | [] => Ok tt
  | x :: xs' => _ <- body x ;; for_each xs' body
  end.

End Json.

Import Json.

(* ================================================================== *)
(** * The process state of the prediction worker *)
(* ================================================================== *)

(** The [serial.Serial] object: whether it is open and what has been written
    to it, oldest first. An open port takes every write. *)
Record Serial : Type := {
  is_open : bool;
  written : list string
}.

(** What [requests.post] meets: it raises, or it returns a response with a
    status code and a body that [response.json()] decodes or not. *)
Inductive http_outcome : Type :=
| PostRaises (e : exn)
| Response (status_code : Z) (body : option json).

(** The port object that [connect_arduino] made, the module global
    [relay_permanently_off] (assigned in [control_hardware] and nowhere
    else), and the payloads posted to [PREDICT_URL]. *)
Record World : Type := {
  port : Serial;
  relay_permanently_off : bool;
  posted : list TimedReading
}.

(** The value of the parameter [arduino]: [None], or the port object. *)
Inductive handle : Type := Arduino.

(** Code that acts on the world and can raise; what was done before an
    exception stays done. *)
Definition M (A : Type) : Type := World -> result A * World.

Definition ret {A} (a : A) : M A := fun w => (Ok a, w).

Definition bindM {A B} (m : M A) (k : A -> M B) : M B :=
  fun w => match m w with
           | (Ok a, w') => k a w'
           | (Raise e, w') => (Raise e, w')
           end.

Definition lift {A} (r : result A) : M A := fun w => (r, w).

Fixpoint handleM {A} (e : exn) (hs : list (list clause * M A)) : M A :=
  match hs with
  | [] => fun w => (Raise e, w)
  | (cs, h) :: hs' => if catches cs e then h else handleM e hs'
  end.

Definition try_exceptM {A} (body : M A) (hs : list (list clause * M A)) : M A :=
  fun w => match body w with
           | (Ok a, w') => (Ok a, w')
           | (Raise e, w') => handleM e hs w'
           end.

Declare Scope world_scope.
Delimit Scope world_scope with world.
Notation "x <- m ;; k" := (bindM m (fun x => k))
  (at level 61, m at next level, right associativity) : world_scope.
Notation "m ;; k" := (bindM m (fun _ => k))
  (at level 61, right associativity) : world_scope.

(** [arduino.write(data)] *)
Definition write (data : string) : M unit :=
  fun w =>
    if is_open (port w) then
      (Ok tt, {| port := {| is_open := is_open (port w);
                            written := written (port w) ++ [data] |};
                 relay_permanently_off := relay_permanently_off w;
                 posted := posted w |})
    else (Raise SerialException, w).

Definition get_relay : M bool := fun w => (Ok (relay_permanently_off w), w).

Definition set_relay (b : bool) : M unit :=
  fun w => (Ok tt, {| port := port w; relay_permanently_off := b;
                      posted := posted w |}).

(** [requests.post(PREDICT_URL, json=payload, timeout=10)] *)
Definition post (payload : TimedReading) (net : http_outcome)
  : M (Z * option json) :=
  fun w =>
    let w' := {| port := port w;
                 relay_permanently_off := relay_permanently_off w;
                 posted := posted w ++ [payload] |} in
    match net with
    | PostRaises e => (Raise e, w')
    | Response status_code body => (Ok (status_code, body), w')
    end.

(** [when c m]: [if c: m] *)
Definition when (c : bool) (m : M unit) : M unit := if c then m else ret tt.

Definition nl : string := String (ascii_of_nat 10) EmptyString.

(* ================================================================== *)
(** * Hardware control and the status display *)
(* ================================================================== *)

Inductive risk : Type := low | medium | high.

(** The [if]/[elif] that sets [risk_level] from the quality label. *)
Definition risk_level_of (quality : string) : risk :=
  if Str.contains "HIGH RISK" (Str.upper quality) then high
  else if Str.contains "MEDIUM RISK" (Str.upper quality) then medium
  else low.

(** [quality.upper()] exists on a [str] only. *)
Definition classify (quality : json) : result risk :=
  match quality with
  | JStr q => Ok (risk_level_of q)
  | _ => Raise AttributeError
  end.

(** [not arduino or not arduino.is_open] *)
Definition unusable (arduino : option handle) : M bool :=
  fun w => match arduino with
           | None => (Ok true, w)
           | Some Arduino => (Ok (negb (is_open (port w))), w)
           end.

(** [result and 'prediction' in result] *)
Definition has_prediction (result : json) : Py.result bool :=
  if truthy result then Json.contains "prediction" result else Ok false.

Definition control_hardware (arduino : option handle) (result : json) : M unit :=
  (stop <- unusable arduino ;;
   if stop then ret tt
   else
     try_exceptM
       (go <- lift (has_prediction result) ;;
        when go
          (prediction <- lift (getitem result "prediction") ;;
           quality <- lift (getitem prediction "quality") ;;
           risk_level <- lift (classify quality) ;;
           relay <- get_relay ;;
           when (match risk_level with high => negb relay | _ => false end)
             (write ("RELAY:ON" ++ nl)%string ;; set_relay true) ;;
           when (match risk_level with low => false | _ => true end)
             (write ("BUZZER:ON" ++ nl)%string)))
       [ ([Exception], ret tt) ])%world.

Section Display.

(** [str(v)] for a decoded value that is not a [str]: the text CPython
    prints for a number, [None], a boolean or a container. *)
Variable repr : json -> string.

(** What an f-string puts for [{v}]. *)
Definition fmt (v : json) : string :=
  match v with
  | JStr s => s
  | _ => repr v
  end.

Definition send_to_arduino (arduino : option handle) (result : json) : M unit :=
  (stop <- unusable arduino ;;
   if stop then ret tt
   else
     try_exceptM
       (go <- lift (has_prediction result) ;;
        when go
          (prediction <- lift (getitem result "prediction") ;;
           quality <- lift (getitem prediction "quality") ;;
           prediction' <- lift (getitem result "prediction") ;;
           confidence <- lift (getitem prediction' "confidence") ;;
           label <- lift (slice_to 12 quality) ;;
           let quality_text := (fmt label ++ " " ++ fmt confidence ++ "%")%string in
           write ("RISK:" ++ quality_text ++ nl)%string ;;
           risks <- lift (get result "disease_risks" JNone) ;;
           some <- lift (if truthy risks then
                           (risks' <- getitem result "disease_risks" ;;
                            n <- len risks' ;;
                            Ok (0 <? n)%nat)%py
                         else Ok false) ;;
           if some then
             risks' <- lift (getitem result "disease_risks") ;;
             top_disease <- lift (getitem_int risks' 0) ;;
             name <- lift (getitem top_disease "name") ;;
             disease_name <- lift (slice_to 16 name) ;;
             write ("ISSUE:" ++ fmt disease_name ++ nl)%string
           else
             write ("ISSUE:Safe to use" ++ nl)%string))
       [ ([Exception], ret tt) ])%world.

(* ================================================================== *)
(** * Thread 2: the prediction worker *)
(* ================================================================== *)

(** The reads of one disease entry in the report loop. *)
Definition report_disease (disease : json) : result unit :=
  level <- getitem disease "level" ;;
  _ <- (if eq_str level "high" then Ok tt
        else _ <- getitem disease "level" ;; Ok tt) ;;
  _ <- getitem disease "name" ;;
  _ <- getitem disease "risk_percent" ;;
  _ <- getitem disease "status" ;;
  Ok tt.

(** The reads the worker makes of [result] while it prints the prediction,
    before it touches the hardware. *)
Definition report (result : json) : Py.result unit :=
  prediction <- getitem result "prediction" ;;
  _ <- getitem prediction "quality" ;;
  prediction' <- getitem result "prediction" ;;
  _ <- getitem prediction' "confidence" ;;
  health <- get result "health_risks" (JDict []) ;;
  factors <- get health "risk_factors" JNone ;;
  _ <- (if truthy factors then
          health' <- getitem result "health_risks" ;;
          risk_factors <- getitem health' "risk_factors" ;;
          if truthy risk_factors then
            first <- getitem_int risk_factors 0 ;;
            if negb (eq_str first "All OK") then
              _ <- iter risk_factors ;; Ok tt
            else Ok tt
          else Ok tt
        else Ok tt) ;;
  risks <- get result "disease_risks" JNone ;;
  if truthy risks then
    risks' <- getitem result "disease_risks" ;;
    diseases <- iter risks' ;;
    for_each diseases report_disease
  else Ok tt.

(** [response.json()] *)
Definition json_of (body : option json) : result json :=
  match body with
  | Some v => Ok v
  | None => Raise JSONDecodeError
  end.

(** What [prediction_queue.get(timeout=1)] gives one turn of the loop: it
    times out, or it returns an item; [net] is what the post then meets. *)
Inductive turn : Type :=
| Empty
| Got (prediction_item : BatchItem) (net : http_outcome).

(** One turn of the worker's [while] loop. The counter [prediction_count]
    and the texts printed are left out: nothing reads them. *)
Definition prediction_iteration (arduino : option handle) (t : turn) : M unit :=
  (try_exceptM
     (match t with
      | Empty => lift (Raise QueueEmpty)
      | Got prediction_item net =>
          let avg_data := data prediction_item in
          try_exceptM
            (response <- post avg_data net ;;
             let '(status_code, body) := response in
             if (status_code =? 200)%Z then
               result <- lift (json_of body) ;;
               lift (report result) ;;
               control_hardware arduino result ;;
               send_to_arduino arduino result
             else ret tt)
            [ ([Only Timeout], ret tt);
              ([Exception], ret tt) ]
      end)
     [ ([Only QueueEmpty], ret tt);
       ([Exception], ret tt) ])%world.

(** The loop over the turns it gets; an exception that no clause catches
    ends the thread. *)
Fixpoint prediction_thread (arduino : option handle) (turns : list turn) : M unit :=
  match turns with
  | [] => ret tt
  | t :: turns' =>
      (prediction_iteration arduino t ;; prediction_thread arduino turns')%world
  end.

End Display.

(* ================================================================== *)
(** * Vocabulary of the statements *)
(* ================================================================== *)

(** The checks of a line of four fields, once each field is a float. *)
Definition in_ranges (t s p c : Float.float) : bool :=
  between 0 t 100 && between 0 s 2000 && between 0 p 14 && between (-10) c 100.

(** What the loop does with one accepted reading. *)
Definition accept_timed (st : Reader) (x : TimedReading) : Reader :=
  accept_reading st (values x) (time x).

(** The state after a list of accepted readings. *)
Record batched (acc : list TimedReading) (st : Reader) : Prop := {
  b_count : reading_count st = length acc;
  b_instant : instant_update_queue st = acc;
  b_buffer : sensor_buffer st = skipn (5 * (length acc / 5)) acc;
  b_length : length (prediction_queue st) = length acc / 5;
  b_items : forall k r, nth_error acc (5 * k + 4) = Some r ->
      nth_error (prediction_queue st) k
      = Some {| data := r; count := 5 * (k + 1); batch_time := time r |}
}.



(* ================================================================== *)
(** * What the hardware functions amount to *)
(* ================================================================== *)

(** The risk level [control_hardware] computes from [result], when it gets
    that far: [result] holds a prediction whose quality is a [str]. *)
Definition classification (result : json) : option risk :=
  match has_prediction result with
  | Ok true =>
      match (prediction <- getitem result "prediction" ;;
             quality <- getitem prediction "quality" ;;
             classify quality) with
      | Ok r => Some r
      | Raise _ => None
      end
  | _ => None
  end.

(** The world after the lines [l] are written to the port. *)
Definition wrote (l : list string) (w : World) : World :=
  {| port := {| is_open := is_open (port w);
                written := written (port w) ++ l |};
     relay_permanently_off := relay_permanently_off w;
     posted := posted w |}.

Definition latched (w : World) : World :=
  {| port := port w; relay_permanently_off := true; posted := posted w |}.

Definition RELAY_ON : string := ("RELAY:ON" ++ nl)%string.
Definition BUZZER_ON : string := ("BUZZER:ON" ++ nl)%string.

(** The actuator as a state machine: what a classification does. *)
Definition actuate (r : option risk) (w : World) : World :=
  match r with
  | Some high =>
      if relay_permanently_off w then wrote [BUZZER_ON] w
      else wrote [BUZZER_ON] (latched (wrote [RELAY_ON] w))
  | Some medium => wrote [BUZZER_ON] w
  | _ => w
  end.

(** [arduino and arduino.is_open] *)
Definition usable (arduino : option handle) (w : World) : bool :=
  match arduino with
  | Some Arduino => is_open (port w)
  | None => false
  end.

(** How often a command stands in what was written to the port. *)
Definition sent (cmd : string) (w : World) : nat :=
  count_occ string_dec (written (port w)) cmd.







Definition ISSUE_line (text : string) : string :=
  ("ISSUE:" ++ text ++ nl)%string.


(** The world after one more payload was posted. *)
Definition posted_one (payload : TimedReading) (w : World) : World :=
  {| port := port w; relay_permanently_off := relay_permanently_off w;
     posted := posted w ++ [payload] |}.

(** A prediction attempt fails for the worker when the post raises (a
    timeout, a connection error), when the status is not 200, when the body
    does not decode, or when the reads of the decoded result that come
    before the hardware is touched raise. *)
Definition attempt_fails (net : http_outcome) : Prop :=
  match net with
  | PostRaises e => is_Exception e = true
  | Response status_code body =>
      status_code <> 200%Z
      \/ body = None
      \/ exists result e, body = Some result /\ report result = Raise e
  end.

(** A computation that raises nothing but [Exception]s. *)
Definition mild {A} (r : result A) : Prop :=
  forall e, r = Raise e -> is_Exception e = true.

(** A stand-in for the text CPython gives a value, for the examples: exact
    on [None], the booleans, the integers and the floats that are integers
    below [10^16]. The theorems hold for every such function. *)
Definition repr_sample (v : json) : string :=
  match v with
  | JNone => "None"
  | JBool true => "True"
  | JBool false => "False"
  | JInt z => NilZero.string_of_int (Z.to_int z)
  | JFloat (S754_zero false) => "0.0"
  | JFloat (S754_zero true) => "-0.0"
  | JFloat (S754_infinity false) => "inf"
  | JFloat (S754_infinity true) => "-inf"
  | JFloat S754_nan => "nan"
  | JFloat (S754_finite s m e) =>
      let n := (if (0 <=? e)%Z then Zpos m * 2 ^ e
                else Zpos m / 2 ^ (- e))%Z in
      let exact := ((0 <=? e) || (Zpos m mod 2 ^ (- e) =? 0))%Z in
      if exact && (n <? 10 ^ 16)%Z then
        ((if s then "-" else "") ++ NilZero.string_of_int (Z.to_int n) ++ ".0")%string
      else "<float>"
  | JStr s => s
  | JList _ => "[...]"
  | JDict _ => "{...}"
  end.

Definition sample_item : BatchItem :=
  {| data := {| values := {| turbidity := Float.of_int 1;
                             tds := Float.of_int 150;
                             ph := Float.of_int 7;
                             temperature := Float.of_int 22 |};
                time := "12:00:05" |};
     count := 5; batch_time := "12:00:05" |}.

Definition sample_world : World :=
  {| port := {| is_open := true; written := [] |};
     relay_permanently_off := false; posted := [] |}.

(** A result with a quality label, the confidence 95.0 and a list of
    diseases. *)
Definition sample_result (quality : string) (diseases : list json) : json :=
  JDict [("status", JStr "success");
         ("prediction", JDict [("quality", JStr quality);
                               ("confidence", JFloat (Float.of_int 95))]);
         ("disease_risks", JList diseases);
         ("health_risks", JDict [("risk_factors", JList [JStr "All OK"])])].

Definition sample_disease (name level : string) : json :=
  JDict [("name", JStr name); ("risk_percent", JFloat (Float.of_int 80));
         ("status", JStr "HIGH RISK"); ("level", JStr level)].

(* ================================================================== *)
(** * Thread 3: the sender of instant updates *)
(* ================================================================== *)











(* ================================================================== *)
(** * Vocabulary of the further statements *)
(* ================================================================== *)

(** Neither NaN nor an infinity. *)
Definition is_finite (f : Float.float) : bool :=
  match f with
  | S754_zero _ | S754_finite _ _ _ => true
  | _ => false
  end.

Definition reading_in_ranges (r : Reading) : bool :=
  in_ranges (turbidity r) (tds r) (ph r) (temperature r).

Definition reading_finite (r : Reading) : bool :=
  is_finite (turbidity r) && is_finite (tds r) && is_finite (ph r)
  && is_finite (temperature r).

(** Every fifth element: the fifth, the tenth, ... *)
Fixpoint every_fifth {A} (l : list A) : list A :=
  match l with
  | _ :: _ :: _ :: _ :: x :: rest => x :: every_fifth rest
  | _ => []
  end.

(** The items a run of the worker gets, in order. *)
Definition items_of (turns : list turn) : list BatchItem :=
  flat_map (fun t => match t with Got item _ => [item] | Empty => [] end) turns.

(** A turn whose post, if it raises, raises an [Exception]. *)
Definition tame (t : turn) : bool :=
  match t with
  | Got _ (PostRaises e) => is_Exception e
  | _ => true
  end.


(** Fields joined by commas, as the device frames a line. *)
Definition comma : string := ",".

Definition frame (a b c d : string) : string :=
  (a ++ comma ++ b ++ comma ++ c ++ comma ++ d)%string.

Fixpoint all_chars (p : ascii -> bool) (s : string) : bool :=
  match s with
  | EmptyString => true
  | String c r => p c && all_chars p r
  end.

Definition no_comma (s : string) : bool :=
  all_chars (fun c => negb (Ascii.eqb c ",")) s.

(** [s] with blanks before and after. *)
Definition padded (before s after : string) : string :=
  (before ++ s ++ after)%string.

(** The text of the [RISK] line and of the [ISSUE] line. *)
Definition is_RISK_line (s : string) : Prop :=
  exists text, s = ("RISK:" ++ text ++ nl)%string.

Definition is_ISSUE_line (s : string) : Prop :=
  exists text, s = ISSUE_line text.





(* ================================================================== *)
(** * The server of [backend/app.py]: grading a reading *)
(* ================================================================== *)

(** The functions of the server that compute: the grading of the model's
    percentages, the parameter checks, the two posting endpoints, the chat
    endpoint and its answers. The files, the data frames and the random
    samples of the other endpoints are left out.

    A text outside ASCII, such as the signs in the labels, is the bytes of
    its UTF-8 form; a dict is the list of its pairs, with distinct keys;
    [print] leaves no trace here either. An endpoint is modelled from the
    point where Flask has decoded the request: what it returns is a
    [reply], and the module global [latest_sensor_data] is passed in and
    out. *)

(** [x < y] and [x > y]; false as soon as either side is NaN. *)
Definition float_lt (x y : Float.float) : bool := SFltb x y.
Definition float_gt (x y : Float.float) : bool := SFltb y x.

(** The literals [6.5] and [8.5]. *)
Definition six_and_a_half : Float.float := Float.of_decimal false 65 (-1).
Definition eight_and_a_half : Float.float := Float.of_decimal false 85 (-1).

(** [round(x, ndigits)] for a [float] and [ndigits >= 0]: the decimal with
    [ndigits] places nearest to the exact value of [x], ties to the even
    one, read back as a double; zeros, infinities and NaN are returned as
    they are. *)
Definition round (x : Float.float) (ndigits : nat) : Float.float :=
  match x with
  | S754_finite s m e =>
      let scale := (10 ^ Z.of_nat ndigits)%Z in
      let num := (if 0 <=? e then Zpos m * 2 ^ e * scale else Zpos m * scale)%Z in
      let den := (if 0 <=? e then 1 else 2 ^ (- e))%Z in
      let q := (num / den)%Z in
      let r := (num mod den)%Z in
      let n := (if 2 * r <? den then q
                else if den <? 2 * r then q + 1
                else if Z.even q then q else q + 1)%Z in
      Float.of_decimal s n (- Z.of_nat ndigits)
  | _ => x
  end.

Definition DISEASE_NAMES : list string :=
  [ "Diarrhea"; "Dysentery"; "Typhoid"; "Cholera"; "Kidney Stones";
    "Skin Irritation"; "Hepatitis A"; "Giardiasis"; "Cryptosporidiosis";
    "E. coli Infection" ].

(** The three labels, as the bytes of their UTF-8 text. *)
Definition LOW_RISK : string := "LOW RISK".
Definition MEDIUM_RISK : string := "MEDIUM RISK ⚠️".
Definition HIGH_RISK : string := "HIGH RISK 🚨".

(** The loaded model on one reading: the row [model.predict(X_input)[0]],
    or what computing it raises. *)
Definition predictor : Type :=
  Float.float -> Float.float -> Float.float -> Float.float
  -> result (list Float.float).

(** The three variables the grading loop carries. *)
Record tally : Type := {
  disease_results : list json;
  high_risk : bool;
  medium_risk : bool
}.

(** The body of the loop for the prediction at index [i]. *)
Definition grade (i : nat) (risk_percent : Float.float) (st : tally)
  : result tally :=
  let '(status, risk_level, st1) :=
    if float_lt risk_percent (Float.of_int 40) then
      (LOW_RISK, "low", st)
    else if float_lt risk_percent (Float.of_int 55) then
      (MEDIUM_RISK, "medium",
       {| disease_results := disease_results st;
          high_risk := high_risk st; medium_risk := true |})
    else
      (HIGH_RISK, "high",
       {| disease_results := disease_results st;
          high_risk := true; medium_risk := medium_risk st |}) in
  name <- list_getitem DISEASE_NAMES i ;;
  Ok {| disease_results :=
          disease_results st1 ++
          [ JDict [ ("name", JStr name);
                    ("risk_percent", JFloat (round risk_percent 1));
                    ("status", JStr status);
                    ("level", JStr risk_level) ] ];
        high_risk := high_risk st1;
        medium_risk := medium_risk st1 |}.

(** [for i, risk_percent in enumerate(predictions)], from index [i] on. *)
Fixpoint grade_all (i : nat) (predictions : list Float.float) (st : tally)
  : result tally :=
  match predictions with
  | [] => Ok st
  | risk_percent :: rest =>
      st' <- grade i risk_percent st ;; grade_all (S i) rest st'
  end.

(** [predict_disease_risks(turbidity, tds, ph, temp)]; [model] is the module
    global of that name, [None] when no model file was loaded. The pair it
    returns holds [None] or the list of graded diseases, and a text. *)
Definition predict_disease_risks (model : option predictor)
  (turbidity tds ph temp : Float.float)
  : result (option (list json) * string) :=
  match model with
  | None => Ok (None, "Model not loaded")
  | Some predict =>
      try_except
        (predictions <- predict turbidity tds ph temp ;;
         st <- grade_all 0 predictions
                 {| disease_results := []; high_risk := false;
                    medium_risk := false |} ;;
         let overall_risk :=
           if high_risk st then HIGH_RISK
           else if medium_risk st then MEDIUM_RISK
           else LOW_RISK in
         Ok (Some (disease_results st), overall_risk))
        [ ([Exception], Ok (None, "Prediction failed")) ]
  end.

Definition check_parameter_issues (turbidity tds ph temp : Float.float)
  : list string :=
  let issues := [] in
  let issues := if float_gt turbidity (Float.of_int 5)
                then issues ++ ["Turbidity High"] else issues in
  let issues := if float_gt tds (Float.of_int 500)
                then issues ++ ["TDS High"] else issues in
  let issues := if float_lt ph six_and_a_half || float_gt ph eight_and_a_half
                then issues ++ ["pH Out Range"] else issues in
  let issues := if float_gt temp (Float.of_int 50)
                then issues ++ ["Temp High"] else issues in
  match issues with
  | [] => ["All OK"]
  | _ => issues
  end.

(** One entry of [out_of_range]. *)
Definition out_of_range_entry (parameter : string) (value : Float.float)
  (unit safe_range status : string) : json :=
  JDict [ ("parameter", JStr parameter); ("value", JFloat value);
          ("unit", JStr unit); ("safe_range", JStr safe_range);
          ("status", JStr status) ].

(** The list [out_of_range] that both endpoints build from the four
    values. *)
Definition out_of_range_of (turbidity tds ph temp : Float.float) : list json :=
  let out_of_range := [] in
  let out_of_range :=
    if float_gt turbidity (Float.of_int 5)
    then out_of_range ++
         [out_of_range_entry "Turbidity" turbidity "NTU" "< 5" "HIGH"]
    else out_of_range in
  let out_of_range :=
    if float_gt tds (Float.of_int 500)
    then out_of_range ++ [out_of_range_entry "TDS" tds "ppm" "< 500" "HIGH"]
    else out_of_range in
  let out_of_range :=
    if float_lt ph six_and_a_half || float_gt ph eight_and_a_half
    then out_of_range ++
         [out_of_range_entry "pH" ph "" "6.5 - 8.5" "OUT OF RANGE"]
    else out_of_range in
  let out_of_range :=
    if float_gt temp (Float.of_int 50)
    then out_of_range ++
         [out_of_range_entry "Temperature" temp "°C" "< 50" "HIGH"]
    else out_of_range in
  out_of_range.

(** [[d['name'] for d in disease_results if d['level'] in ['high', 'medium']]] *)
Fixpoint names_at_risk (disease_results : list json) : result (list json) :=
  match disease_results with
  | [] => Ok []
  | d :: rest =>
      level <- getitem d "level" ;;
      if eq_str level "high" || eq_str level "medium" then
        name <- getitem d "name" ;;
        names <- names_at_risk rest ;;
        Ok (name :: names)
      else names_at_risk rest
  end.

(* ================================================================== *)
(** * The server: the stored state and the two posting endpoints *)
(* ================================================================== *)

(** [d[k] = v] on a dict: a key that is there keeps its place. *)
Fixpoint dict_set (k : string) (v : json) (d : list (string * json))
  : list (string * json) :=
  match d with
  | [] => [(k, v)]
  | (k', v') :: d' =>
      if String.eqb k k' then (k', v) :: d' else (k', v') :: dict_set k v d'
  end.

(** [d.update(kvs)] *)
Definition dict_update (d kvs : list (string * json)) : list (string * json) :=
  fold_left (fun d kv => dict_set (fst kv) (snd kv) d) kvs d.

(** The module global [latest_sensor_data] as the module sets it. *)
Definition latest_sensor_data_start : list (string * json) :=
  [ ("turbidity", JFloat (Float.of_int 2)); ("tds", JInt 200);
    ("ph", JFloat (Float.of_int 7)); ("temperature", JFloat (Float.of_int 25));
    ("quality", JStr "Analyzing"); ("diseases", JList []);
    ("disease_details", JList []); ("last_reading_time", JNone);
    ("reading_count", JInt 0); ("time", JStr ""); ("out_of_range", JList []) ].

(** What an endpoint returns: the body with status 200, the fixed error
    body with status 500, or the error body that carries the text of the
    exception [e], with status 400. *)
Inductive reply : Type :=
| Success (body : json)
| ModelFailed
| BadRequest (e : exn).

Definition status_code_of (r : reply) : Z :=
  match r with
  | Success _ => 200
  | ModelFailed => 500
  | BadRequest _ => 400
  end.



(** [except Exception as e: return jsonify(...), 400] *)
Definition refused (e : exn) : result reply :=
  if is_Exception e then Ok (BadRequest e) else Raise e.

(** [update_sensor_reading()] from the point where the four values and
    [reading_time] have been read from the request: the body returned and
    the new value of [latest_sensor_data]. [now] is [time.time()]. *)
Definition update_sensor_reading (turbidity tds ph temp : Float.float)
  (reading_time : json) (now : Float.float)
  (latest_sensor_data : list (string * json))
  : reply * list (string * json) :=
  let out_of_range := out_of_range_of turbidity tds ph temp in
  let latest_sensor_data :=
    dict_update latest_sensor_data
      [ ("turbidity", JFloat turbidity); ("tds", JFloat tds);
        ("ph", JFloat ph); ("temperature", JFloat temp);
        ("last_reading_time", JFloat now); ("time", reading_time);
        ("out_of_range", JList out_of_range) ] in
  (Success (JDict [ ("status", JStr "success");
                    ("message", JStr "Sensor reading updated (real-time)");
                    ("out_of_range_parameters", JList out_of_range);
                    ("reading_time", reading_time) ]),
   latest_sensor_data).

Definition WHO_GUIDELINES : json :=
  JDict [ ("turbidity", JStr "< 5 NTU"); ("tds", JStr "< 500 ppm");
          ("ph", JStr "6.5 - 8.5"); ("temperature", JStr "< 50°C") ].

(** The dict assigned to [latest_sensor_data] after a prediction. *)
Definition predicted_state (turbidity tds ph temp : Float.float)
  (overall_risk : string) (diseases disease_results : list json)
  (now : Float.float) (reading_time : json) (out_of_range : list json)
  : list (string * json) :=
  [ ("turbidity", JFloat turbidity); ("tds", JFloat tds);
    ("ph", JFloat ph); ("temperature", JFloat temp);
    ("quality", JStr overall_risk); ("diseases", JList diseases);
    ("disease_details", JList disease_results);
    ("last_reading_time", JFloat now); ("reading_count", JInt 0);
    ("time", reading_time); ("out_of_range", JList out_of_range) ].

(** The dict [response] of a prediction. *)
Definition prediction_response (turbidity tds ph temp : Float.float)
  (reading_time : json) (overall_risk : string)
  (disease_results diseases : list json) (issues : list string)
  (timestamp : string) : json :=
  JDict
    [ ("status", JStr "success");
      ("sensor_data",
       JDict [ ("turbidity", JFloat (round turbidity 2));
               ("tds", JFloat (round tds 2));
               ("ph", JFloat (round ph 2));
               ("temperature", JFloat (round temp 2));
               ("time", reading_time) ]);
      ("prediction",
       JDict [ ("quality", JStr overall_risk);
               ("confidence", JFloat (Float.of_int 95)) ]);
      ("disease_risks", JList disease_results);
      ("health_risks",
       JDict [ ("diseases", JList diseases);
               ("risk_factors", JList (map JStr issues)) ]);
      ("who_guidelines", WHO_GUIDELINES);
      ("timestamp", JStr timestamp) ].

(** [receive_sensor_data()] from the point where the four values and
    [reading_time] have been read from the request: the reply and the new
    value of [latest_sensor_data]. [logged] is what [log_reading] comes to
    (it appends to the CSV file and may raise), [now] is [time.time()] and
    [timestamp] the formatted [datetime.now()]. *)
Definition receive_sensor_data (model : option predictor)
  (turbidity tds ph temp : Float.float) (reading_time : json)
  (logged : result unit) (now : Float.float) (timestamp : string)
  (latest_sensor_data : list (string * json))
  : result reply * list (string * json) :=
  match predict_disease_risks model turbidity tds ph temp with
  | Raise e => (refused e, latest_sensor_data)
  | Ok (None, _) => (Ok ModelFailed, latest_sensor_data)
  | Ok (Some disease_results, overall_risk) =>
      let issues := check_parameter_issues turbidity tds ph temp in
      match (_ <- logged ;;
             let out_of_range := out_of_range_of turbidity tds ph temp in
             diseases <- names_at_risk disease_results ;;
             Ok (predicted_state turbidity tds ph temp overall_risk diseases
                   disease_results now reading_time out_of_range)) with
      | Raise e => (refused e, latest_sensor_data)
      | Ok latest_sensor_data' =>
          match names_at_risk disease_results with
          | Raise e => (refused e, latest_sensor_data')
          | Ok diseases =>
              (Ok (Success
                     (prediction_response turbidity tds ph temp reading_time
                        overall_risk disease_results diseases issues
                        timestamp)),
               latest_sensor_data')
          end
      end
  end.

(* ================================================================== *)
(** * The server: the chatbot *)
(* ================================================================== *)

Definition DISEASE_INFO : list (string * list (string * string)) :=
  [ ("Cholera",
     [ ("cause",
        "Caused by Vibrio cholerae bacteria in contaminated water or food.");
       ("symptoms",
        "Severe watery diarrhea, vomiting, dehydration.");
       ("precautions",
        "Drink safe water, practice good hygiene, wash hands, avoid raw or undercooked food.");
       ("treatment",
        "Rehydration therapy (oral or IV), antibiotics in severe cases.") ]);
    ("Diarrhea",
     [ ("cause",
        "Often caused by bacteria, viruses, or parasites in contaminated water or food.");
       ("symptoms",
        "Frequent loose stools, dehydration, abdominal cramps.");
       ("precautions",
        "Drink boiled or filtered water, maintain hygiene, wash hands.");
       ("treatment",
        "Hydration, electrolyte replacement, antibiotics if bacterial cause is confirmed.") ]) ].

Definition TRAINED_FAQ : list (string * string) :=
  [ ("which water is better",
     "Best water: potable, treated water that meets WHO guidelines...");
    ("tell about disease",
     "Waterborne diseases are illnesses caused by pathogenic microorganisms...");
    ("ask precautions according to disease",
     "Precautions vary by disease — boil or filter water, wash hands...");
    ("ask treatment according to disease",
     "Treatments: ORS, antibiotics for bacterial infections, supportive care for viral causes...");
    ("ask who guidelines",
     "WHO: Turbidity <5 NTU; TDS <500 ppm; pH 6.5-8.5; maintain sanitation and hand hygiene.") ].

(** [d.get(k, default)] on a dict of texts. *)
Fixpoint text_get (d : list (string * string)) (k default : string) : string :=
  match d with
  | [] => default
  | (k', v) :: d' => if String.eqb k k' then v else text_get d' k default
  end.

(** [DISEASE_INFO.get(disease, {})] *)
Fixpoint info_of (table : list (string * list (string * string)))
  (disease : string) : list (string * string) :=
  match table with
  | [] => []
  | (k, info) :: table' =>
      if String.eqb disease k then info else info_of table' disease
  end.

(** [sep.join(l)] on a list of [str]. *)
Fixpoint join (sep : string) (l : list string) : string :=
  match l with
  | [] => ""
  | [s] => s
  | s :: l' => (s ++ sep ++ join sep l')%string
  end.

(** The items of an iterable as [str.join] takes them: all must be [str]. *)
Fixpoint texts_of (items : list json) : result (list string) :=
  match items with
  | [] => Ok []
  | JStr s :: rest => l <- texts_of rest ;; Ok (s :: l)
  | _ :: _ => Raise TypeError
  end.

(** [sep.join(v)] *)
Definition join_json (sep : string) (v : json) : result string :=
  items <- iter v ;;
  l <- texts_of items ;;
  Ok (join sep l).

(** [for key in TRAINED_FAQ: if key in q: return TRAINED_FAQ[key]] *)
Fixpoint faq_answer (faq : list (string * string)) (q : string) : option string :=
  match faq with
  | [] => None
  | (key, text) :: faq' =>
      if Str.contains key q then Some text else faq_answer faq' q
  end.

(** The first name of [names] whose lower-case form is in [q]. *)
Fixpoint disease_asked (names : list string) (q : string) : option string :=
  match names with
  | [] => None
  | disease :: names' =>
      if Str.contains (Str.lower disease) q then Some disease
      else disease_asked names' q
  end.

(** The card returned for a disease named in the question. *)
Definition disease_card (disease : string) : string :=
  let info := info_of DISEASE_INFO disease in
  (disease ++ nl ++
   "Cause: " ++ text_get info "cause" "N/A" ++ nl ++
   "Symptoms: " ++ text_get info "symptoms" "N/A" ++ nl ++
   "Precautions: " ++ text_get info "precautions" "N/A" ++ nl ++
   "Treatment: " ++ text_get info "treatment" "N/A")%string.

(** The list [lines] of the precautions and of the treatments. *)
Definition advice_lines (title field : string) : list string :=
  title ::
  map (fun d => ("• " ++ d ++ ": "
                 ++ text_get (info_of DISEASE_INFO d) field "N/A")%string)
      DISEASE_NAMES.

(** [any(w in q for w in words)] *)
Definition any_in (words : list string) (q : string) : bool :=
  existsb (fun w => Str.contains w q) words.

Definition SAFE_TO_DRINK : string := "✅ Water is currently SAFE to drink.".
Definition BOIL_BEFORE_USE : string := "⚠️ MEDIUM RISK: Boil water before use.".
Definition DO_NOT_DRINK : string := "🚨 HIGH RISK: Do NOT drink.".

(** [d.get(k, default)] on the stored state. *)
Definition state_get (d : list (string * json)) (k : string) (default : json)
  : json :=
  match lookup k d with
  | Some v => v
  | None => default
  end.

(** [generate_chat_response(question, context, disease_risks)] against the
    global [latest_sensor_data]. The parameters [context] and
    [disease_risks] are never read and are left out. A [question] that is
    not a [str] has no [strip]. *)
Definition generate_chat_response (question : json)
  (latest_sensor_data : list (string * json)) : result string :=
  match question with
  | JStr text =>
      let q := Str.lower (Str.strip text) in
      match faq_answer TRAINED_FAQ q with
      | Some text => Ok text
      | None =>
      match disease_asked DISEASE_NAMES q with
      | Some disease => Ok (disease_card disease)
      | None =>
      if Str.contains "what diseases" q && Str.contains "cause" q then
        let high_risk_diseases :=
          state_get latest_sensor_data "diseases" (JList []) in
        if truthy high_risk_diseases then
          names <- join_json ", " high_risk_diseases ;;
          Ok ("🚨 This water can cause " ++ names)%string
        else
          Ok "✅ No significant waterborne disease risk detected currently."
      else if any_in ["prevent"; "precaution"; "avoid"] q then
        Ok (join nl (advice_lines "💧 Water safety precautions:" "precautions"))
      else if any_in ["treat"; "treatment"; "cure"] q then
        Ok (join nl (advice_lines "💊 Disease treatments:" "treatment"))
      else
        let quality := state_get latest_sensor_data "quality" (JStr "Unknown") in
        if Str.contains "safe" q || Str.contains "drink" q
           || Str.contains "consume" q then
          if eq_str quality "LOW RISK" then Ok SAFE_TO_DRINK
          else
            medium <- Json.contains "MEDIUM" quality ;;
            if medium then Ok BOIL_BEFORE_USE else Ok DO_NOT_DRINK
        else
          Ok "Ask about water safety, diseases, treatment, or precautions."
      end
      end
  | _ => Raise AttributeError
  end.

(* ================================================================== *)
(** * What the server's functions amount to *)
(* ================================================================== *)

(** The grade of one predicted percentage. *)
Definition level_of (risk_percent : Float.float) : risk :=
  if float_lt risk_percent (Float.of_int 40) then low
  else if float_lt risk_percent (Float.of_int 55) then medium
  else high.

Definition level_name (r : risk) : string :=
  match r with
  | low => "low"
  | medium => "medium"
  | high => "high"
  end.

Definition label_of (r : risk) : string :=
  match r with
  | low => LOW_RISK
  | medium => MEDIUM_RISK
  | high => HIGH_RISK
  end.

(** The higher of two grades, and the highest of a row. *)
Definition worse (a b : risk) : risk :=
  match a, b with
  | high, _ | _, high => high
  | medium, _ | _, medium => medium
  | low, low => low
  end.

Definition worst_level (row : list Float.float) : risk :=
  fold_right (fun x r => worse (level_of x) r) low row.

(** The entry of [disease_results] for a name and its percentage. *)
Definition graded (name : string) (risk_percent : Float.float) : json :=
  JDict [ ("name", JStr name);
          ("risk_percent", JFloat (round risk_percent 1));
          ("status", JStr (label_of (level_of risk_percent)));
          ("level", JStr (level_name (level_of risk_percent))) ].

(** The names of the diseases of a row graded medium or high. *)
Fixpoint names_above_low (names : list string) (row : list Float.float)
  : list json :=
  match names, row with
  | name :: names', x :: row' =>
      match level_of x with
      | low => names_above_low names' row'
      | _ => JStr name :: names_above_low names' row'
      end
  | _, _ => []
  end.

(** The issue text that goes with an entry of [out_of_range]. *)
Definition issue_of (entry : json) : string :=
  match getitem entry "parameter" with
  | Ok (JStr "Turbidity") => "Turbidity High"
  | Ok (JStr "TDS") => "TDS High"
  | Ok (JStr "pH") => "pH Out Range"
  | Ok (JStr "Temperature") => "Temp High"
  | _ => ""
  end.

(** The seven keys that [update_sensor_reading] writes. *)
Definition live_keys : list string :=
  [ "turbidity"; "tds"; "ph"; "temperature"; "last_reading_time"; "time";
    "out_of_range" ].

(** One live update as data: the four values, the time text and the
    clock. *)
Record live : Type := {
  live_turbidity : Float.float;
  live_tds : Float.float;
  live_ph : Float.float;
  live_temp : Float.float;
  live_time : json;
  live_now : Float.float
}.

(** The state after a run of live updates. *)
Definition after_updates (updates : list live) (d : list (string * json))
  : list (string * json) :=
  fold_left
    (fun d u =>
       snd (update_sensor_reading (live_turbidity u) (live_tds u) (live_ph u)
              (live_temp u) (live_time u) (live_now u) d))
    updates d.

(** The entries of [disease_results] for a row of percentages. *)
Definition graded_row (names : list string) (row : list Float.float)
  : list json :=
  map (fun nx => graded (fst nx) (snd nx)) (combine names row).

Definition is_medium (r : risk) : bool :=
  match r with
  | medium => true
  | _ => false
  end.

Definition is_top (r : risk) : bool :=
  match r with
  | high => true
  | _ => false
  end.

(** The four issue texts, in the order the checks are made. *)
Definition ISSUES : list string :=
  [ "Turbidity High"; "TDS High"; "pH Out Range"; "Temp High" ].

(** [l] holds elements of [m] in the order of [m], none twice. *)
Fixpoint sublist (l m : list string) : Prop :=
  match l, m with
  | [], _ => True
  | _ :: _, [] => False
  | x :: l', y :: m' => (x = y /\ sublist l' m') \/ sublist l m'
  end.

(** A question that gets past the FAQ, the disease cards, the list of
    diseases, the precautions and the treatments, and asks whether the
    water can be drunk. [q] is the question stripped and in lower case. *)
Definition asks_about_safety (q : string) : bool :=
  match faq_answer TRAINED_FAQ q, disease_asked DISEASE_NAMES q with
  | None, None =>
      negb (Str.contains "what diseases" q && Str.contains "cause" q)
      && negb (any_in ["prevent"; "precaution"; "avoid"] q)
      && negb (any_in ["treat"; "treatment"; "cure"] q)
      && (Str.contains "safe" q || Str.contains "drink" q
          || Str.contains "consume" q)
  | _, _ => false
  end.

(** The answer that goes with a grade. *)
Definition verdict (r : risk) : string :=
  match r with
  | low => SAFE_TO_DRINK
  | medium => BOIL_BEFORE_USE
  | high => DO_NOT_DRINK
  end.

(** The four values [chat_with_ai] answers from: those of the request's
    [quality_data] when it carries one, with the stored ones as
    defaults, else the stored ones. *)
Definition chat_context (quality_data : json)
  (latest_sensor_data : list (string * json))
  : result (json * json * json * json) :=
  let stored_details := state_get latest_sensor_data "disease_details" (JList []) in
  let stored_prediction :=
    JDict [("quality", state_get latest_sensor_data "quality" (JStr "Unknown"))] in
  let stored_health :=
    JDict [("diseases", state_get latest_sensor_data "diseases" (JList []))] in
  if truthy quality_data then
    sensor_data <- get quality_data "sensor_data" (JDict latest_sensor_data) ;;
    disease_risks <- get quality_data "disease_risks" stored_details ;;
    prediction <- get quality_data "prediction" stored_prediction ;;
    health_risks <- get quality_data "health_risks" stored_health ;;
    Ok (sensor_data, disease_risks, prediction, health_risks)
  else
    Ok (JDict latest_sensor_data, stored_details, stored_prediction,
        stored_health).

(** The dict that [chat_with_ai] passes to [latest_sensor_data.update]. *)
Definition chat_update (sensor_data disease_risks prediction health_risks : json)
  (latest_sensor_data : list (string * json))
  : result (list (string * json)) :=
  turbidity <- get sensor_data "turbidity"
                 (state_get latest_sensor_data "turbidity" (JInt 0)) ;;
  tds <- get sensor_data "tds" (state_get latest_sensor_data "tds" (JInt 0)) ;;
  ph <- get sensor_data "ph" (state_get latest_sensor_data "ph" (JInt 0)) ;;
  temperature <- get sensor_data "temperature"
                   (state_get latest_sensor_data "temperature" (JInt 0)) ;;
  quality <- get prediction "quality"
               (state_get latest_sensor_data "quality" (JStr "Unknown")) ;;
  diseases <- get health_risks "diseases" (JList []) ;;
  Ok [ ("turbidity", turbidity); ("tds", tds); ("ph", ph);
       ("temperature", temperature); ("quality", quality);
       ("diseases", diseases); ("disease_details", disease_risks) ].

(** [chat_with_ai()] from the point where [request.json] has given [data]:
    the reply and the new value of [latest_sensor_data]. The text
    [context] it builds is passed on and never read. An exception after
    the update leaves the update done. *)
Definition chat_with_ai (data : json) (timestamp : string)
  (latest_sensor_data : list (string * json))
  : result reply * list (string * json) :=
  match (user_question <- get data "question" (JStr "") ;;
         quality_data <- get data "quality_data" JNone ;;
         context <- chat_context quality_data latest_sensor_data ;;
         let '(sensor_data, disease_risks, prediction, health_risks) :=
           context in
         update <- chat_update sensor_data disease_risks prediction
                     health_risks latest_sensor_data ;;
         Ok (user_question, update)) with
  | Raise e => (refused e, latest_sensor_data)
  | Ok (user_question, update) =>
      let latest_sensor_data := dict_update latest_sensor_data update in
      match generate_chat_response user_question latest_sensor_data with
      | Raise e => (refused e, latest_sensor_data)
      | Ok response_text =>
          (Ok (Success
                 (JDict [ ("status", JStr "success");
                          ("question", user_question);
                          ("answer", JStr response_text);
                          ("context", JDict latest_sensor_data);
                          ("timestamp", JStr timestamp) ])),
           latest_sensor_data)
      end
  end.

(** The keys that [chat_with_ai] writes. *)
Definition chat_keys : list string :=
  [ "turbidity"; "tds"; "ph"; "temperature"; "quality"; "diseases";
    "disease_details" ].

(** A state that holds every key of [keys]. *)
Definition has_keys (keys : list string) (d : list (string * json)) : bool :=
  forallb (fun k => match lookup k d with Some _ => true | None => false end)
          keys.

(** A request that carries no [quality_data], or an empty one. *)
Definition plain_question (data : json) : bool :=
  match data with
  | JDict d => negb (truthy (state_get d "quality_data" JNone))
  | _ => false
  end.

(** A key that is missing or holds a dict. *)
Definition dict_or_absent (k : string) (d : list (string * json)) : bool :=
  match lookup k d with
  | None | Some (JDict _) => true
  | Some _ => false
  end.

(* ================================================================== *)
(** * The line parser: results *)
(* ================================================================== *)

Arguments Float.of_str : simpl never.
Arguments between : simpl never.

(** [float(s)] raises nothing but [ValueError]. *)
Lemma of_str_raises (s : string) (e : exn) :
  Float.of_str s = Raise e -> e = ValueError.
Proof.
  unfold Float.of_str.
  destruct (Float.drop_underscores zero (Str.strip_with Float.is_blank s))
    as [t|]; [|congruence].
  destruct (Float.read_sign t) as [neg body].
  destruct (_ || _); [discriminate|].
  destruct (String.eqb _ _); [discriminate|].
  destruct (Float.read_decimal body) as [[m e']|]; congruence.
Qed.

Lemma of_str_cases (s : string) :
  (exists x, Float.of_str s = Ok x) \/ Float.of_str s = Raise ValueError.
Proof.
  destruct (Float.of_str s) as [x|e] eqn:E.
  - left. now exists x.
  - right. now rewrite (of_str_raises _ E).
Qed.

(** The parser on a line that does not split into four fields. *)
Lemma parse_wrong_count (line : string) :
  length (Str.split "," line) <> 4%nat -> parse_sensor_line line = Ok None.
Proof.
  intros H. unfold parse_sensor_line.
  apply Nat.eqb_neq in H. now rewrite H.
Qed.


Lemma parse_four_ok (line a b c d : string) (t s p k : Float.float) :
  Str.split "," line = [a; b; c; d] ->
  Float.of_str a = Ok t -> Float.of_str b = Ok s ->
  Float.of_str c = Ok p -> Float.of_str d = Ok k ->
  parse_sensor_line line =
  Ok (if in_ranges t s p k
      then Some {| turbidity := t; tds := s; ph := p; temperature := k |}
      else None).
Proof.
  intros Hs Ha Hb Hc Hd. unfold parse_sensor_line, in_ranges.
  rewrite Hs. simpl. rewrite Ha. simpl. rewrite Hb. simpl.
  rewrite Hc. simpl. rewrite Hd. simpl.
  destruct (between 0 t 100); simpl; [|reflexivity].
  destruct (between 0 s 2000); simpl; [|reflexivity].
  destruct (between 0 p 14); simpl; [|reflexivity].
  destruct (between (-10) k 100); reflexivity.
Qed.

Lemma parse_four_bad (line a b c d : string) :
  Str.split "," line = [a; b; c; d] ->
  (exists f, In f [a; b; c; d] /\ Float.of_str f = Raise ValueError) ->
  parse_sensor_line line = Ok None.
Proof.
  intros Hs [f [Hin Hf]]. unfold parse_sensor_line. rewrite Hs. simpl.
  destruct (of_str_cases a) as [[t Ha]|Ha]; rewrite Ha; simpl; [|reflexivity].
  destruct (of_str_cases b) as [[s Hb]|Hb]; rewrite Hb; simpl; [|reflexivity].
  destruct (of_str_cases c) as [[p Hc]|Hc]; rewrite Hc; simpl; [|reflexivity].
  destruct (of_str_cases d) as [[k Hd]|Hd]; rewrite Hd; simpl; [|reflexivity].
  simpl in Hin. destruct Hin as [<-|[<-|[<-|[<-|[]]]]]; congruence.
Qed.

(** Every line falls in one of three cases. *)
Lemma parse_cases (line : string) :
  length (Str.split "," line) <> 4%nat
  \/ (exists a b c d, Str.split "," line = [a; b; c; d]
        /\ exists f, In f [a; b; c; d] /\ Float.of_str f = Raise ValueError)
  \/ (exists a b c d t s p k, Str.split "," line = [a; b; c; d]
        /\ Float.of_str a = Ok t /\ Float.of_str b = Ok s
        /\ Float.of_str c = Ok p /\ Float.of_str d = Ok k).
Proof.
  destruct (Str.split "," line) as [|a [|b [|c [|d [|x l]]]]] eqn:Hs;
    try (left; simpl; lia).
  right.
  destruct (of_str_cases a) as [[t Ha]|Ha];
    [|left; exists a, b, c, d; split; [easy|exists a; simpl; auto]].
  destruct (of_str_cases b) as [[s Hb]|Hb];
    [|left; exists a, b, c, d; split; [easy|exists b; simpl; auto]].
  destruct (of_str_cases c) as [[p Hc]|Hc];
    [|left; exists a, b, c, d; split; [easy|exists c; simpl; auto]].
  destruct (of_str_cases d) as [[k Hd]|Hd];
    [|left; exists a, b, c, d; split; [easy|exists d; simpl; auto 6]].
  right. exists a, b, c, d, t, s, p, k. auto 6.
Qed.

(** C9. The parser is total: on every line, whatever it holds, it returns a
    reading or [None], and no exception reaches its caller. *)
Theorem parse_sensor_line_total (line : string) :
  exists r : option Reading, parse_sensor_line line = Ok r.
Proof.
  destruct (parse_cases line)
    as [H|[(a & b & c & d & Hs & Hf)|(a & b & c & d & t & s & p & k & Hs & Ha & Hb & Hc & Hd)]].
  - exists None. now apply parse_wrong_count.
  - exists None. now apply (parse_four_bad _ Hs).
  - eexists. apply (parse_four_ok _ Hs Ha Hb Hc Hd).
Qed.

(** C7. On an accepted line the four fields of the reading are the floats
    that [float] gives for the four fields of the line, in order and
    unchanged. *)
Theorem parse_sensor_line_fields (line : string) (r : Reading) :
  parse_sensor_line line = Ok (Some r) ->
  exists a b c d,
    Str.split "," line = [a; b; c; d]
    /\ Float.of_str a = Ok (turbidity r)
    /\ Float.of_str b = Ok (tds r)
    /\ Float.of_str c = Ok (ph r)
    /\ Float.of_str d = Ok (temperature r).
Proof.
  intros H.
  destruct (parse_cases line)
    as [Hn|[(a & b & c & d & Hs & Hf)|(a & b & c & d & t & s & p & k & Hs & Ha & Hb & Hc & Hd)]].
  - rewrite (parse_wrong_count _ Hn) in H. discriminate.
  - rewrite (parse_four_bad _ Hs Hf) in H. discriminate.
  - rewrite (parse_four_ok _ Hs Ha Hb Hc Hd) in H.
    destruct (in_ranges t s p k); [|discriminate].
    injection H as <-. exists a, b, c, d. simpl. auto.
Qed.

Lemma parse_sensor_line_fields_witness :
  exists a b c d,
    Str.split "," "1.0,150,7.0,22.0" = [a; b; c; d]
    /\ Float.of_str a = Ok (S754_finite false 4503599627370496 (-52))
    /\ Float.of_str b = Ok (S754_finite false 5277655813324800 (-45))
    /\ Float.of_str c = Ok (S754_finite false 7881299347898368 (-50))
    /\ Float.of_str d = Ok (S754_finite false 6192449487634432 (-48)).
Proof.
  apply (@parse_sensor_line_fields "1.0,150,7.0,22.0"
           {| turbidity := S754_finite false 4503599627370496 (-52);
              tds := S754_finite false 5277655813324800 (-45);
              ph := S754_finite false 7881299347898368 (-50);
              temperature := S754_finite false 6192449487634432 (-48) |}).
  vm_compute. reflexivity.
Defined.

(** C3. The parser rejects a line exactly when the line does not split into
    four fields, or a field is not a float for [float], or a value lies
    outside its range; and a rejected line changes nothing in the reader:
    its count, its buffer and both queues stay as they were. *)
Theorem parse_sensor_line_rejects (line : string) :
  (parse_sensor_line line = Ok None <->
     length (Str.split "," line) <> 4%nat
     \/ (exists f, In f (Str.split "," line)
           /\ Float.of_str f = Raise ValueError)
     \/ (exists a b c d t s p k,
           Str.split "," line = [a; b; c; d]
           /\ Float.of_str a = Ok t /\ Float.of_str b = Ok s
           /\ Float.of_str c = Ok p /\ Float.of_str d = Ok k
           /\ (between 0 t 100 = false \/ between 0 s 2000 = false
               \/ between 0 p 14 = false \/ between (-10) k 100 = false)))
  /\ (parse_sensor_line line = Ok None ->
      forall (st : Reader) (raw now : string),
        Str.strip raw = line -> reader_iteration st (Line raw now) = st).
Proof.
  split.
  - split.
    + intros H.
      destruct (parse_cases line)
        as [Hn|[(a & b & c & d & Hs & Hf)|(a & b & c & d & t & s & p & k & Hs & Ha & Hb & Hc & Hd)]].
      * now left.
      * right. left. now rewrite Hs.
      * right. right. exists a, b, c, d, t, s, p, k.
        rewrite (parse_four_ok _ Hs Ha Hb Hc Hd) in H. unfold in_ranges in H.
        repeat split; try assumption.
        destruct (between 0 t 100); [|now left].
        destruct (between 0 s 2000); [|now right; left].
        destruct (between 0 p 14); [|now right; right; left].
        destruct (between (-10) k 100); [discriminate|now right; right; right].
    + intros [Hn|[(f & Hin & Hf)|(a & b & c & d & t & s & p & k & Hs & Ha & Hb & Hc & Hd & Hr)]].
      * now apply parse_wrong_count.
      * destruct (Nat.eq_dec (length (Str.split "," line)) 4) as [E|E];
          [|now apply parse_wrong_count].
        destruct (Str.split "," line) as [|a [|b [|c [|d [|x l]]]]] eqn:Hs;
          try discriminate.
        apply (parse_four_bad _ Hs). now exists f.
      * rewrite (parse_four_ok _ Hs Ha Hb Hc Hd). unfold in_ranges.
        destruct Hr as [E|[E|[E|E]]]; rewrite E;
          repeat rewrite ?andb_false_r, ?andb_false_l; reflexivity.
  - intros H st raw now <-. simpl. rewrite H.
    now destruct (Str.is_empty (Str.strip raw)).
Qed.

(* ================================================================== *)
(** * The reader: batches *)
(* ================================================================== *)


Lemma reader_iteration_accepted (st : Reader) (p : poll) :
  reader_iteration st p = fold_left accept_timed (accepted_of p) st.
Proof.
  destruct p as [| |raw now]; simpl; try reflexivity.
  destruct (Str.is_empty (Str.strip raw)); [reflexivity|].
  destruct (parse_sensor_line (Str.strip raw)) as [[r|]|e]; reflexivity.
Qed.

Lemma reader_thread_accepted (polls : list poll) (st : Reader) :
  fold_left reader_iteration polls st
  = fold_left accept_timed (accepted polls) st.
Proof.
  revert st. induction polls as [|p polls IH]; intros st; simpl; [reflexivity|].
  unfold accepted in *. simpl. rewrite fold_left_app.
  rewrite <- reader_iteration_accepted. apply IH.
Qed.


Lemma div5_step (n : nat) :
  (n mod 5 = 4 /\ S n / 5 = S (n / 5) /\ S n = 5 * S (n / 5))
  \/ (n mod 5 < 4 /\ S n / 5 = n / 5).
Proof.
  pose proof (Nat.div_mod_eq n 5) as Hn.
  pose proof (Nat.mod_upper_bound n 5 ltac:(lia)) as Hm.
  destruct (Nat.eq_dec (n mod 5) 4) as [E|E].
  - left. split; [exact E|].
    assert (S n = 5 * S (n / 5)) as H by lia. split; [|exact H].
    rewrite H at 1. rewrite Nat.mul_comm. apply Nat.div_mul. lia.
  - right. split; [lia|].
    symmetry. apply (Nat.div_unique (S n) 5 (n / 5) (S (n mod 5))); lia.
Qed.

Lemma batched_start : batched [] reader_start.
Proof.
  constructor; try reflexivity.
  intros k r H. destruct (5 * k + 4); discriminate.
Qed.

Lemma batched_step (acc : list TimedReading) (st : Reader) (x : TimedReading) :
  batched acc st -> batched (acc ++ [x]) (accept_timed st x).
Proof.
  intros [Hc Hi Hb Hl Hk].
  assert (length (sensor_buffer st) = length acc mod 5) as Hlen.
  { rewrite Hb, length_skipn.
    pose proof (Nat.div_mod_eq (length acc) 5). lia. }
  assert (5 * (length acc / 5) <= length acc) as Hle.
  { pose proof (Nat.div_mod_eq (length acc) 5). lia. }
  unfold accept_timed, accept_reading, READINGS_BUFFER.
  rewrite length_app, Hlen. simpl length.
  destruct (div5_step (length acc)) as [(Hm & Hd & He)|(Hm & Hd)].
  - replace (5 <=? length acc mod 5 + 1)%nat with true
      by (symmetry; apply Nat.leb_le; lia).
    constructor; cbn [reading_count sensor_buffer instant_update_queue prediction_queue].
    + rewrite length_app. simpl. lia.
    + now rewrite Hi; destruct x.
    + rewrite length_app. simpl length. rewrite Nat.add_1_r, Hd, <- He.
      rewrite skipn_all2; [reflexivity|]. rewrite length_app. simpl. lia.
    + rewrite !length_app. simpl length. rewrite !Nat.add_1_r, Hd. lia.
    + intros k r Hr. rewrite last_last.
      destruct (Nat.lt_ge_cases (5 * k + 4) (length acc)) as [Hlt|Hge].
      * rewrite nth_error_app1 in Hr by exact Hlt.
        rewrite nth_error_app1; [now apply Hk|].
        rewrite Hl. pose proof (Nat.div_mod_eq (length acc) 5). lia.
      * assert (5 * k + 4 < length (acc ++ [x])) as Hlt
          by (apply nth_error_Some; congruence).
        rewrite length_app in Hlt. simpl in Hlt.
        assert (5 * k + 4 = length acc) as E by lia.
        rewrite E, nth_error_app2, Nat.sub_diag in Hr by lia.
        simpl in Hr. injection Hr as <-.
        assert (k = length (prediction_queue st)) as ->
          by (rewrite Hl; pose proof (Nat.div_mod_eq (length acc) 5); lia).
        rewrite nth_error_app2, Nat.sub_diag by lia. cbn [nth_error].
        rewrite Hc. destruct x as [v t]. cbn [values time].
        do 2 f_equal. lia.
  - replace (5 <=? length acc mod 5 + 1)%nat with false
      by (symmetry; apply Nat.leb_gt; lia).
    constructor; cbn [reading_count sensor_buffer instant_update_queue prediction_queue].
    + rewrite length_app. simpl. lia.
    + now rewrite Hi; destruct x.
    + rewrite length_app. simpl length. rewrite Nat.add_1_r, Hd.
      rewrite skipn_app, Hb.
      replace (5 * (length acc / 5) - length acc) with 0 by lia.
      now destruct x.
    + rewrite length_app. simpl length. rewrite Nat.add_1_r, Hd. exact Hl.
    + intros k r Hr.
      assert (5 * k + 4 < length (acc ++ [x])) as Hlt
        by (apply nth_error_Some; congruence).
      rewrite length_app in Hlt. simpl in Hlt.
      pose proof (Nat.div_mod_eq (length acc) 5).
      rewrite nth_error_app1 in Hr by lia. now apply Hk.
Qed.

Lemma batched_all (acc : list TimedReading) :
  batched acc (fold_left accept_timed acc reader_start).
Proof.
  induction acc as [|x acc IH] using rev_ind.
  - apply batched_start.
  - rewrite fold_left_app. simpl. now apply batched_step.
Qed.

(** An enqueue empties the buffer, from any state. *)
Lemma enqueue_clears (st : Reader) (p : poll) :
  prediction_queue (reader_iteration st p) <> prediction_queue st ->
  sensor_buffer (reader_iteration st p) = [].
Proof.
  destruct p as [| |raw now]; simpl; try congruence.
  destruct (Str.is_empty (Str.strip raw)); [congruence|].
  destruct (parse_sensor_line (Str.strip raw)) as [[r|]|e]; try congruence.
  unfold accept_reading.
  destruct (READINGS_BUFFER <=? _)%nat; simpl; congruence.
Qed.

(** C1. Whatever the port delivers, the batch queue receives one item per
    five accepted readings and no other: item [k] carries the fifth reading
    of group [k] as it is (the accepted reading number [5k+4], counting from
    0), the running count [5(k+1)] and that reading's time stamp; the
    readings still pending are those after the last full group; and a turn
    that enqueues an item leaves the pending buffer empty. *)
Theorem reader_batches (polls : list poll) :
  let st := arduino_reader_thread polls in
  let acc := accepted polls in
  reading_count st = length acc
  /\ length (prediction_queue st) = length acc / READINGS_BUFFER
  /\ (forall k, k < length acc / READINGS_BUFFER ->
        exists r, nth_error acc (READINGS_BUFFER * k + 4) = Some r
          /\ nth_error (prediction_queue st) k
             = Some {| data := r; count := READINGS_BUFFER * (k + 1);
                       batch_time := time r |})
  /\ sensor_buffer st
     = skipn (READINGS_BUFFER * (length acc / READINGS_BUFFER)) acc
  /\ (forall s p,
        prediction_queue (reader_iteration s p) <> prediction_queue s ->
        sensor_buffer (reader_iteration s p) = []).
Proof.
  intros st acc. unfold READINGS_BUFFER.
  assert (batched acc st) as [Hc Hi Hb Hl Hk].
  { unfold st, acc, arduino_reader_thread. rewrite reader_thread_accepted.
    apply batched_all. }
  repeat split; try assumption.
  - intros k Hlt.
    pose proof (Nat.div_mod_eq (length acc) 5).
    destruct (nth_error acc (5 * k + 4)) as [r|] eqn:E.
    + exists r. split; [reflexivity|]. now apply Hk.
    + apply nth_error_None in E. lia.
  - apply enqueue_clears.
Qed.

(** Five times the same line: one item, with that reading, and five instant
    updates in order. *)
Example reader_five_lines :
  let polls := map (fun now => Line "1.0,150,7.0,22.0" now)
                 ["t1"; "t2"; "t3"; "t4"; "t5"] in
  let st := arduino_reader_thread polls in
  parse_sensor_line "1.0,150,7.0,22.0"
    = Ok (Some {| turbidity := Float.of_int 1; tds := Float.of_int 150;
                  ph := Float.of_int 7; temperature := Float.of_int 22 |})
  /\ prediction_queue st
     = [ {| data := {| values := {| turbidity := Float.of_int 1;
                                    tds := Float.of_int 150;
                                    ph := Float.of_int 7;
                                    temperature := Float.of_int 22 |};
                       time := "t5" |};
            count := 5; batch_time := "t5" |} ]
  /\ map time (instant_update_queue st) = ["t1"; "t2"; "t3"; "t4"; "t5"]
  /\ sensor_buffer st = [].
Proof. vm_compute. repeat split. Qed.

(** A line that is not numeric, or out of range, reaches no queue. *)
Example reader_rejected_lines :
  parse_sensor_line "abc,150,7.0,22.0" = Ok None
  /\ parse_sensor_line "200,150,7.0,22.0" = Ok None
  /\ parse_sensor_line "nan,150,7.0,22.0" = Ok None
  /\ parse_sensor_line "1.0,150,7.0,inf" = Ok None
  /\ parse_sensor_line "1.0,150,7.0" = Ok None
  /\ arduino_reader_thread
       [Line "abc,150,7.0,22.0" "t1"; Line "200,150,7.0,22.0" "t2"; Idle;
        PortError; Line "  " "t3"]
     = reader_start.
Proof. vm_compute. repeat split. Qed.

(* ================================================================== *)
(** * Strings: substrings and case *)
(* ================================================================== *)

Lemma append_assoc (a b c : string) :
  ((a ++ b) ++ c = a ++ (b ++ c))%string.
Proof. induction a as [|x a IH]; simpl; [reflexivity|now rewrite IH]. Qed.














Example risk_level_examples :
  risk_level_of "HIGH RISK" = high
  /\ risk_level_of "Quality: high risk!" = high
  /\ risk_level_of "Medium Risk, not High  Risk" = medium
  /\ risk_level_of "medium risk / HiGh RiSk" = high
  /\ risk_level_of "LOW RISK" = low
  /\ risk_level_of "HIGHRISK" = low
  /\ risk_level_of "" = low.
Proof. vm_compute. repeat split. Qed.

(* ================================================================== *)
(** * The actuator latch *)
(* ================================================================== *)

(** What the reads of a decoded value raise is an [Exception]. *)
Lemma getitem_exn (v : json) (k : string) (e : exn) :
  getitem v k = Raise e -> is_Exception e = true.
Proof.
  destruct v; simpl; try (intros [= <-]; reflexivity).
  destruct (lookup k d); intros [= <-]; reflexivity.
Qed.

Lemma has_prediction_exn (v : json) (e : exn) :
  has_prediction v = Raise e -> is_Exception e = true.
Proof.
  unfold has_prediction. destruct (truthy v); [|discriminate].
  destruct v; simpl; intros [= <-]; reflexivity.
Qed.

Lemma classify_exn (v : json) (e : exn) :
  classify v = Raise e -> is_Exception e = true.
Proof. destruct v; simpl; intros [= <-]; reflexivity. Qed.

Lemma handled (e : exn) (w : World) :
  is_Exception e = true -> handleM e [([Exception], ret tt)] w = (Ok tt, w).
Proof. intros H. simpl. now rewrite H. Qed.

(** [control_hardware] is the state machine [actuate] on the
    classification of [result], behind the guard on the port. *)
Lemma control_hardware_spec (arduino : option handle) (result : json) (w : World) :
  control_hardware arduino result w
  = (Ok tt, if usable arduino w then actuate (classification result) w else w).
Proof.
  unfold control_hardware, classification, usable, unusable, bindM.
  destruct arduino as [[]|]; [|reflexivity].
  destruct (is_open (port w)) eqn:E; [|reflexivity].
  cbn [negb]. unfold try_exceptM, bindM, lift.
  destruct (has_prediction result) as [[|]|e] eqn:Hp;
    [| reflexivity | now rewrite handled by (eapply has_prediction_exn; eassumption)].
  unfold when.
  destruct (getitem result "prediction") as [p|e] eqn:Hg; cbn [bind];
    [| now rewrite handled by (eapply getitem_exn; eassumption)].
  destruct (getitem p "quality") as [q|e] eqn:Hq; cbn [bind];
    [| now rewrite handled by (eapply getitem_exn; eassumption)].
  destruct (classify q) as [r|e] eqn:Hc;
    [| now rewrite handled by (eapply classify_exn; eassumption)].
  unfold get_relay, actuate.
  destruct r; destruct (relay_permanently_off w) eqn:R;
    cbn [negb]; unfold write, set_relay, ret, wrote, latched; cbn;
    repeat (rewrite ?E, ?R; cbn); reflexivity.
Qed.

Section Respects.

Variable R : World -> World -> Prop.
Hypothesis R_refl : forall w, R w w.
Hypothesis R_trans : forall a b c, R a b -> R b c -> R a c.







End Respects.






Lemma sent_wrote (c : string) (l : list string) (w : World) :
  sent c (wrote l w) = sent c w + count_occ string_dec l c.
Proof. unfold sent, wrote. simpl. apply count_occ_app. Qed.














(** Two high results in a row, then a low one: one [RELAY:ON], two alerts,
    three status updates. *)
Example relay_once_on_two_high :
  let w' := snd (prediction_thread repr_sample (Some Arduino)
                   [Got sample_item
                      (Response 200 (Some (sample_result "HIGH RISK" [])));
                    Empty;
                    Got sample_item
                      (Response 200 (Some (sample_result "High risk" [])));
                    Got sample_item
                      (Response 200 (Some (sample_result "LOW RISK" [])))]
                   sample_world) in
  written (port w')
  = [RELAY_ON; BUZZER_ON;
     ("RISK:HIGH RISK 95.0%" ++ nl)%string; ISSUE_line "Safe to use";
     BUZZER_ON;
     ("RISK:High risk 95.0%" ++ nl)%string; ISSUE_line "Safe to use";
     ("RISK:LOW RISK 95.0%" ++ nl)%string; ISSUE_line "Safe to use"]
  /\ relay_permanently_off w' = true
  /\ length (posted w') = 3.
Proof. vm_compute. repeat split. Qed.

(* ================================================================== *)
(** * The alert, the display and the paths without effect *)
(* ================================================================== *)





Lemma classification_none (result : json) :
  result = JNone \/ (forall p, getitem result "prediction" <> Ok p) ->
  classification result = None.
Proof.
  intros [->|H]; [reflexivity|]. unfold classification.
  destruct (has_prediction result) as [[|]|e]; try reflexivity.
  destruct (getitem result "prediction") as [p|e] eqn:Hg; [|reflexivity].
  now destruct (H p).
Qed.

(** C10. With no port ([None]), a closed port, no result ([None]) or a
    result without a ['prediction'] entry, [control_hardware] and
    [send_to_arduino] return at once: nothing is written and the latch, as
    every other part of the state, is what it was. *)
Theorem nothing_without_port_or_prediction (repr : json -> string)
  (arduino : option handle) (result : json) (w : World) :
  arduino = None \/ is_open (port w) = false \/ result = JNone
  \/ (forall p, getitem result "prediction" <> Ok p) ->
  control_hardware arduino result w = (Ok tt, w)
  /\ send_to_arduino repr arduino result w = (Ok tt, w).
Proof.
  intros H. split.
  - rewrite control_hardware_spec.
    destruct H as [->|[H|H]]; [reflexivity| |].
    + destruct arduino as [[]|]; simpl; [now rewrite H|reflexivity].
    + rewrite (classification_none H). now destruct (usable arduino w).
  - unfold send_to_arduino, unusable, bindM.
    destruct arduino as [[]|]; [|reflexivity].
    destruct (is_open (port w)) eqn:E; [|reflexivity].
    destruct H as [H|[H|H]]; [discriminate|discriminate|].
    cbn [negb]. unfold try_exceptM, bindM, lift.
    destruct H as [->|H]; [reflexivity|].
    destruct (has_prediction result) as [[|]|e] eqn:Hp;
      [| reflexivity | now rewrite handled by (eapply has_prediction_exn; eassumption)].
    unfold when.
    destruct (getitem result "prediction") as [p|e] eqn:Hg;
      [now destruct (H p)|].
    now rewrite handled by (eapply getitem_exn; eassumption).
Qed.

Lemma nothing_without_port_or_prediction_witness :
  let w := {| port := {| is_open := true; written := [] |};
              relay_permanently_off := false; posted := [] |} in
  let result := JDict [("status", JStr "error")] in
  control_hardware (Some Arduino) result w = (Ok tt, w)
  /\ send_to_arduino repr_sample (Some Arduino) result w = (Ok tt, w).
Proof.
  apply (@nothing_without_port_or_prediction repr_sample
           (Some Arduino) (JDict [("status", JStr "error")])).
  right. right. right. intros p. simpl. discriminate.
Defined.





(* ================================================================== *)
(** * The prediction worker: failed attempts *)
(* ================================================================== *)

Lemma mild_ok {A} (a : A) : mild (Ok a).
Proof. intros e H. discriminate. Qed.

Lemma mild_bind {A B} (m : result A) (k : A -> result B) :
  mild m -> (forall a, mild (k a)) -> mild (bind m k).
Proof.
  intros Hm Hk e. destruct m as [a|e']; simpl.
  - apply Hk.
  - intros [= <-]. now apply Hm.
Qed.

Lemma mild_getitem (v : json) (k : string) : mild (getitem v k).
Proof. intros e. apply getitem_exn. Qed.

Lemma mild_get (v : json) (k : string) (d : json) : mild (get v k d).
Proof. intros e. destruct v; simpl; intros [= <-]; reflexivity. Qed.

Lemma mild_getitem_int (v : json) (i : nat) : mild (getitem_int v i).
Proof.
  intros e. destruct v; simpl; try (intros [= <-]; reflexivity).
  - destruct (String.get i s); intros [= <-]; reflexivity.
  - unfold list_getitem. destruct (nth_error l i); intros [= <-]; reflexivity.
Qed.

Lemma mild_iter (v : json) : mild (iter v).
Proof. intros e. destruct v; simpl; intros [= <-]; reflexivity. Qed.

Lemma mild_if {A} (c : bool) (a b : result A) :
  mild a -> mild b -> mild (if c then a else b).
Proof. now destruct c. Qed.

Lemma mild_for_each (xs : list json) (body : json -> result unit) :
  (forall x, mild (body x)) -> mild (for_each xs body).
Proof.
  intros Hb. induction xs as [|x xs IH]; simpl; [apply mild_ok|].
  apply mild_bind; [apply Hb|intros _; exact IH].
Qed.

Ltac mild_steps :=
  repeat first
    [ apply mild_ok | apply mild_getitem | apply mild_get
    | apply mild_getitem_int | apply mild_iter
    | apply mild_if | apply mild_for_each; intros ?
    | apply mild_bind; [|intros ?] ].

Lemma mild_report (result : json) : mild (report result).
Proof. unfold report, report_disease. mild_steps. Qed.

(** The turn of a failed attempt: the payload was posted, once, and that
    is all that happened. *)
Lemma failed_iteration (repr : json -> string) (arduino : option handle)
  (item : BatchItem) (net : http_outcome) (w : World) :
  attempt_fails net ->
  prediction_iteration repr arduino (Got item net) w
  = (Ok tt, posted_one (data item) w).
Proof.
  intros Hf. unfold prediction_iteration, try_exceptM, bindM, post.
  destruct net as [e|status_code body]; simpl in Hf.
  - cbn [handleM catches existsb matches]. rewrite Hf.
    destruct (exn_eqb Timeout e); reflexivity.
  - destruct (Z.eqb_spec status_code 200) as [->|Hs]; [|reflexivity].
    destruct Hf as [Hf|[->|(result & e & -> & Hr)]]; [contradiction| |].
    + reflexivity.
    + unfold json_of, lift. rewrite Hr.
      cbn [handleM catches existsb matches].
      rewrite (mild_report _ Hr). destruct (exn_eqb Timeout e); reflexivity.
Qed.

(** A result the worker reads to the end holds a prediction with a quality
    and a confidence: without them the attempt is a failed one. *)
Lemma report_ok_reads (result : json) :
  report result = Ok tt ->
  exists p q c,
    getitem result "prediction" = Ok p
    /\ getitem p "quality" = Ok q /\ getitem p "confidence" = Ok c.
Proof.
  unfold report. intros H.
  destruct (getitem result "prediction") as [p|e] eqn:Hp; [|discriminate].
  cbn [bind] in H.
  destruct (getitem p "quality") as [q|e] eqn:Hq; [|discriminate].
  cbn [bind] in H.
  destruct (getitem p "confidence") as [c|e] eqn:Hc; [|discriminate].
  now exists p, q, c.
Qed.



(** The failures the design names, and what follows them. *)
Example failed_attempts :
  attempt_fails (PostRaises Timeout)
  /\ attempt_fails (PostRaises ConnectionError)
  /\ attempt_fails (Response 500 (Some (JDict [("status", JStr "error")])))
  /\ attempt_fails (Response 200 None)
  /\ attempt_fails (Response 200 (Some (JDict [("status", JStr "error")])))
  /\ attempt_fails (Response 200 (Some (JList [])))
  /\ attempt_fails
       (Response 200
          (Some (sample_result "HIGH RISK" [JDict [("name", JStr "Cholera")]])))
  /\ written (port (snd (prediction_thread repr_sample (Some Arduino)
                           [Got sample_item (PostRaises Timeout);
                            Got sample_item (Response 200 None);
                            Got sample_item
                              (Response 200
                                 (Some (sample_result "HIGH RISK"
                                          [sample_disease "Cholera" "high"])))]
                           sample_world)))
     = [RELAY_ON; BUZZER_ON;
        ("RISK:HIGH RISK 95.0%" ++ nl)%string; ("ISSUE:Cholera" ++ nl)%string].
Proof.
  repeat split; try reflexivity; try (simpl; left; discriminate);
    try (simpl; right; left; reflexivity);
    try (simpl; right; right; eexists; eexists; split;
         [reflexivity|vm_compute; reflexivity]).
Qed.


(** With no disease at risk the second line is the fixed text. *)
Example status_safe_to_use :
  written (port (snd (send_to_arduino repr_sample (Some Arduino)
                        (sample_result "LOW RISK" []) sample_world)))
  = [("RISK:LOW RISK 95.0%" ++ nl)%string;
     ("ISSUE:Safe to use" ++ nl)%string].
Proof. vm_compute. reflexivity. Qed.

(** A result the worker can read is not a failed attempt, whatever the
    fields it reads later hold: with a first disease whose name is [null]
    the relay, the alert and the [RISK] line go out, and the error that
    follows stays inside [send_to_arduino]. *)
Example readable_result_is_processed :
  let result :=
    sample_result "HIGH RISK"
      [JDict [("name", JNone); ("risk_percent", JInt 80);
              ("status", JStr "HIGH RISK"); ("level", JStr "high")]] in
  report result = Ok tt
  /\ prediction_iteration repr_sample (Some Arduino)
       (Got sample_item (Response 200 (Some result))) sample_world
     = (Ok tt,
        latched (wrote [RELAY_ON; BUZZER_ON;
                        ("RISK:HIGH RISK 95.0%" ++ nl)%string]
                   (posted_one (data sample_item) sample_world))).
Proof. vm_compute. split; reflexivity. Qed.

(* ================================================================== *)
(** * Further results: the parser and the reader *)
(* ================================================================== *)

Lemma every_fifth_nth {A} (k : nat) (l : list A) :
  nth_error (every_fifth l) k = nth_error l (5 * k + 4).
Proof.
  revert l. induction k as [|k IH]; intros l.
  - destruct l as [|a [|b [|c [|d [|x rest]]]]]; reflexivity.
  - replace (5 * S k + 4) with (S (S (S (S (S (5 * k + 4)))))) by lia.
    destruct l as [|a [|b [|c [|d [|x rest]]]]]; try reflexivity.
    cbn [every_fifth nth_error]. apply IH.
Qed.

(** The payloads of the batch items are every fifth accepted reading. *)
Lemma batched_every_fifth (acc : list TimedReading) (st : Reader) :
  batched acc st -> map data (prediction_queue st) = every_fifth acc.
Proof.
  intros [_ _ _ Hl Hk]. apply nth_error_ext. intros k.
  rewrite every_fifth_nth, nth_error_map.
  destruct (nth_error acc (5 * k + 4)) as [r|] eqn:E.
  - now rewrite (Hk _ _ E).
  - apply nth_error_None in E.
    assert (length (prediction_queue st) <= k) as Hle
      by (rewrite Hl; pose proof (Nat.div_mod_eq (length acc) 5);
          pose proof (Nat.mod_upper_bound (length acc) 5); lia).
    apply nth_error_None in Hle. now rewrite Hle.
Qed.

Lemma reader_batched (polls : list poll) :
  batched (accepted polls) (arduino_reader_thread polls).
Proof.
  unfold arduino_reader_thread. rewrite reader_thread_accepted.
  apply batched_all.
Qed.

(** X1. Fan-out of the reader: every accepted reading goes on the instant
    queue, once and in the order of arrival, whether it completes a batch or
    not; the payloads of the batch queue are every fifth of them, so each
    one is also an item of the instant queue. *)
Theorem reader_fans_out (polls : list poll) :
  let st := arduino_reader_thread polls in
  instant_update_queue st = accepted polls
  /\ map data (prediction_queue st) = every_fifth (instant_update_queue st)
  /\ (forall item, In item (prediction_queue st) ->
        In (data item) (instant_update_queue st)
        /\ batch_time item = time (data item)).
Proof.
  intros st. pose proof (reader_batched polls) as H. fold st in H.
  pose proof (batched_every_fifth H) as He.
  destruct H as [_ Hi _ Hl Hk]. rewrite Hi.
  split; [reflexivity|]. split; [exact He|].
  intros item Hin. destruct (In_nth_error _ _ Hin) as [k Hn].
  assert (k < length (prediction_queue st)) as Hlt
    by (apply nth_error_Some; congruence).
  pose proof (Nat.div_mod_eq (length (accepted polls)) 5) as Hd.
  destruct (nth_error (accepted polls) (5 * k + 4)) as [r|] eqn:E.
  - rewrite (Hk _ _ E) in Hn. injection Hn as <-. simpl.
    split; [now apply (nth_error_In _ _ E)|reflexivity].
  - apply nth_error_None in E. lia.
Qed.

(** A value inside one of the parser's four ranges is finite. *)
Lemma between_finite (x : Float.float) :
  (between 0 x 100 = true -> is_finite x = true)
  /\ (between 0 x 2000 = true -> is_finite x = true)
  /\ (between 0 x 14 = true -> is_finite x = true)
  /\ (between (-10) x 100 = true -> is_finite x = true).
Proof.
  destruct x as [s|[|]| |s m e]; repeat split; intros H; try reflexivity;
    vm_compute in H; discriminate.
Qed.

Lemma in_ranges_finite (t s p k : Float.float) :
  in_ranges t s p k = true ->
  is_finite t && is_finite s && is_finite p && is_finite k = true.
Proof.
  unfold in_ranges. rewrite !andb_true_iff. intros [[[Ht Hs] Hp] Hk].
  destruct (between_finite t) as (F & _).
  destruct (between_finite s) as (_ & G & _).
  destruct (between_finite p) as (_ & _ & I & _).
  destruct (between_finite k) as (_ & _ & _ & J).
  now rewrite (F Ht), (G Hs), (I Hp), (J Hk).
Qed.

Lemma parse_accepted_in_ranges (line : string) (r : Reading) :
  parse_sensor_line line = Ok (Some r) ->
  reading_in_ranges r = true /\ reading_finite r = true.
Proof.
  intros H.
  destruct (parse_cases line)
    as [Hn|[(a & b & c & d & Hs & Hf)|(a & b & c & d & t & s & p & k & Hs & Ha & Hb & Hc & Hd)]].
  - rewrite (parse_wrong_count _ Hn) in H. discriminate.
  - rewrite (parse_four_bad _ Hs Hf) in H. discriminate.
  - rewrite (parse_four_ok _ Hs Ha Hb Hc Hd) in H.
    destruct (in_ranges t s p k) eqn:E; [|discriminate].
    injection H as <-. unfold reading_in_ranges, reading_finite. simpl.
    split; [exact E|now apply in_ranges_finite].
Qed.

(** X2. A reading the parser returns has its four values inside their
    ranges, bounds included, and none of them is NaN or an infinity: a field
    such as [nan] or [inf], which [float] accepts, never gets through. *)
Theorem parse_sensor_line_in_ranges (line : string) (r : Reading) :
  parse_sensor_line line = Ok (Some r) ->
  (between 0 (turbidity r) 100 = true /\ between 0 (tds r) 2000 = true
   /\ between 0 (ph r) 14 = true /\ between (-10) (temperature r) 100 = true)
  /\ (is_finite (turbidity r) = true /\ is_finite (tds r) = true
      /\ is_finite (ph r) = true /\ is_finite (temperature r) = true).
Proof.
  intros H. destruct (parse_accepted_in_ranges _ H) as [Hr Hf].
  unfold reading_in_ranges, in_ranges in Hr. unfold reading_finite in Hf.
  rewrite !andb_true_iff in Hr, Hf. tauto.
Qed.

Lemma parse_sensor_line_in_ranges_witness :
  (between 0 (Float.of_int 100) 100 = true
   /\ between 0 (Float.of_int 0) 2000 = true
   /\ between 0 (Float.of_int 14) 14 = true
   /\ between (-10) (Float.of_int (-10)) 100 = true)
  /\ (is_finite (Float.of_int 100) = true /\ is_finite (Float.of_int 0) = true
      /\ is_finite (Float.of_int 14) = true
      /\ is_finite (Float.of_int (-10)) = true).
Proof.
  exact (@parse_sensor_line_in_ranges "100,0,14.0,-1e1"
           {| turbidity := Float.of_int 100; tds := Float.of_int 0;
              ph := Float.of_int 14; temperature := Float.of_int (-10) |}
           eq_refl).
Defined.

Lemma accepted_in_ranges (polls : list poll) :
  Forall (fun x => reading_in_ranges (values x) = true
                   /\ reading_finite (values x) = true) (accepted polls).
Proof.
  unfold accepted. induction polls as [|p polls IH]; simpl; [constructor|].
  apply Forall_app. split; [|exact IH].
  destruct p as [| |raw now]; simpl; try constructor.
  destruct (Str.is_empty (Str.strip raw)); [constructor|].
  destruct (parse_sensor_line (Str.strip raw)) as [[r|]|e] eqn:E;
    try constructor; [|constructor].
  simpl. now apply parse_accepted_in_ranges with (line := Str.strip raw).
Qed.

Lemma Forall_skipn {A} (P : A -> Prop) (n : nat) (l : list A) :
  Forall P l -> Forall P (skipn n l).
Proof.
  intros H. rewrite <- (firstn_skipn n l) in H.
  now apply Forall_app in H.
Qed.

(** X3. What the reader keeps, whatever the port delivers: the pending
    buffer always holds fewer than [READINGS_BUFFER] readings, and every
    reading in the buffer, on the instant queue and in a batch item is inside
    the parser's ranges and finite. *)
Theorem reader_keeps_valid (polls : list poll) :
  let st := arduino_reader_thread polls in
  let valid := fun x : TimedReading =>
    reading_in_ranges (values x) = true /\ reading_finite (values x) = true in
  length (sensor_buffer st) < READINGS_BUFFER
  /\ Forall valid (sensor_buffer st)
  /\ Forall valid (instant_update_queue st)
  /\ Forall (fun item => valid (data item)) (prediction_queue st).
Proof.
  intros st valid. pose proof (reader_batched polls) as H. fold st in H.
  pose proof (batched_every_fifth H) as He.
  pose proof (accepted_in_ranges polls) as Hv. fold valid in Hv.
  destruct H as [_ Hi Hb Hl Hk]. unfold READINGS_BUFFER.
  split; [|split; [|split]].
  - rewrite Hb, length_skipn.
    pose proof (Nat.div_mod_eq (length (accepted polls)) 5).
    pose proof (Nat.mod_upper_bound (length (accepted polls)) 5). lia.
  - rewrite Hb. now apply Forall_skipn.
  - now rewrite Hi.
  - apply Forall_forall. intros item Hin.
    assert (In (data item) (every_fifth (accepted polls))) as Hd
      by (rewrite <- He; now apply in_map).
    destruct (In_nth_error _ _ Hd) as [k Hn].
    rewrite every_fifth_nth in Hn. apply nth_error_In in Hn.
    rewrite Forall_forall in Hv. now apply Hv.
Qed.

(* ================================================================== *)
(** * Further results: blanks around the fields *)
(* ================================================================== *)

Lemma lstrip_with_blanks (p : ascii -> bool) (pre s : string) :
  all_chars p pre = true ->
  Str.lstrip_with p (pre ++ s) = Str.lstrip_with p s.
Proof.
  induction pre as [|c pre IH]; simpl; [reflexivity|].
  intros H. apply andb_true_iff in H as [Hc Hp]. rewrite Hc. now apply IH.
Qed.

Lemma rstrip_with_all (p : ascii -> bool) (s : string) :
  all_chars p s = true -> Str.rstrip_with p s = EmptyString.
Proof.
  induction s as [|c s IH]; simpl; [reflexivity|].
  intros H. apply andb_true_iff in H as [Hc Hs]. now rewrite (IH Hs), Hc.
Qed.

Lemma rstrip_with_blanks (p : ascii -> bool) (s post : string) :
  all_chars p post = true ->
  Str.rstrip_with p (s ++ post) = Str.rstrip_with p s.
Proof.
  intros H. induction s as [|c s IH]; simpl.
  - now apply rstrip_with_all.
  - now rewrite IH.
Qed.

Lemma lstrip_with_all (p : ascii -> bool) (s : string) :
  all_chars p s = true -> Str.lstrip_with p s = EmptyString.
Proof.
  induction s as [|c s IH]; simpl; [reflexivity|].
  intros H. apply andb_true_iff in H as [Hc Hs]. now rewrite Hc, (IH Hs).
Qed.

(** Either the blanks run to the end of [s], or what is left after them
    keeps what follows [s]. *)
Lemma lstrip_with_app (p : ascii -> bool) (s post : string) :
  (all_chars p s = true /\ Str.lstrip_with p s = EmptyString)
  \/ Str.lstrip_with p (s ++ post) = (Str.lstrip_with p s ++ post)%string.
Proof.
  induction s as [|c s IH]; simpl.
  - now left.
  - destruct (p c) eqn:Hc; [|now right].
    destruct IH as [[Ha Hl]|IH]; [left|right]; auto.
Qed.

Lemma strip_with_padded (p : ascii -> bool) (pre s post : string) :
  all_chars p pre = true -> all_chars p post = true ->
  Str.strip_with p (padded pre s post) = Str.strip_with p s.
Proof.
  intros Hpre Hpost. unfold Str.strip_with, padded.
  rewrite lstrip_with_blanks by exact Hpre.
  destruct (lstrip_with_app p s post) as [[Ha Hl]|H].
  - rewrite Hl. rewrite lstrip_with_all; [reflexivity|].
    clear Hl. induction s as [|c s IH]; simpl in *; [exact Hpost|].
    apply andb_true_iff in Ha as [Hc Hs]. rewrite Hc. now apply IH.
  - rewrite H. now apply rstrip_with_blanks.
Qed.

Lemma of_str_padded (pre s post : string) :
  all_chars Float.is_blank pre = true ->
  all_chars Float.is_blank post = true ->
  Float.of_str (padded pre s post) = Float.of_str s.
Proof.
  intros Hpre Hpost. unfold Float.of_str.
  now rewrite strip_with_padded.
Qed.

Lemma split_field (a rest : string) :
  no_comma a = true ->
  Str.split "," (a ++ String "," rest) = a :: Str.split "," rest.
Proof.
  unfold no_comma. induction a as [|c a IH]; simpl; [reflexivity|].
  intros H. apply andb_true_iff in H as [Hc Ha].
  apply negb_true_iff in Hc. rewrite Hc, (IH Ha). reflexivity.
Qed.

Lemma split_last (a : string) :
  no_comma a = true -> Str.split "," a = [a].
Proof.
  unfold no_comma. induction a as [|c a IH]; simpl; [reflexivity|].
  intros H. apply andb_true_iff in H as [Hc Ha].
  apply negb_true_iff in Hc. now rewrite Hc, (IH Ha).
Qed.

Lemma split_frame (a b c d : string) :
  no_comma a = true -> no_comma b = true ->
  no_comma c = true -> no_comma d = true ->
  Str.split "," (frame a b c d) = [a; b; c; d].
Proof.
  intros Ha Hb Hc Hd. unfold frame, comma. cbn [append].
  rewrite split_field by exact Ha. rewrite split_field by exact Hb.
  rewrite split_field by exact Hc. now rewrite split_last.
Qed.

Lemma all_chars_app (p : ascii -> bool) (a b : string) :
  all_chars p (a ++ b) = all_chars p a && all_chars p b.
Proof.
  induction a as [|c a IH]; simpl; [reflexivity|].
  now rewrite IH, andb_assoc.
Qed.

Lemma blank_no_comma (s : string) :
  all_chars Float.is_blank s = true -> no_comma s = true.
Proof.
  unfold no_comma. induction s as [|c s IH]; simpl; [reflexivity|].
  intros H. apply andb_true_iff in H as [Hc Hs]. rewrite (IH Hs), andb_true_r.
  destruct (Ascii.eqb_spec c ","); [subst c; discriminate|reflexivity].
Qed.

Lemma padded_no_comma (pre s post : string) :
  all_chars Float.is_blank pre = true ->
  all_chars Float.is_blank post = true ->
  no_comma s = true -> no_comma (padded pre s post) = true.
Proof.
  intros Hpre Hpost Hs.
  apply blank_no_comma in Hpre. apply blank_no_comma in Hpost.
  unfold no_comma, padded in *.
  now rewrite !all_chars_app, Hs, Hpre, Hpost.
Qed.

(** The parser on a line given by its four fields. *)
Lemma parse_frame (a b c d : string) :
  no_comma a = true -> no_comma b = true ->
  no_comma c = true -> no_comma d = true ->
  parse_sensor_line (frame a b c d)
  = match Float.of_str a, Float.of_str b, Float.of_str c, Float.of_str d with
    | Ok t, Ok s, Ok p, Ok k =>
        Ok (if in_ranges t s p k
            then Some {| turbidity := t; tds := s; ph := p; temperature := k |}
            else None)
    | _, _, _, _ => Ok None
    end.
Proof.
  intros Ha Hb Hc Hd. pose proof (split_frame _ _ _ _ Ha Hb Hc Hd) as Hs.
  destruct (of_str_cases a) as [[t Ea]|Ea];
    [|rewrite Ea; apply (parse_four_bad _ Hs); exists a; simpl; auto].
  destruct (of_str_cases b) as [[s Eb]|Eb];
    [|rewrite Ea, Eb; apply (parse_four_bad _ Hs); exists b; simpl; auto].
  destruct (of_str_cases c) as [[p Ec]|Ec];
    [|rewrite Ea, Eb, Ec; apply (parse_four_bad _ Hs); exists c; simpl; auto].
  destruct (of_str_cases d) as [[k Ed]|Ed];
    [|rewrite Ea, Eb, Ec, Ed; apply (parse_four_bad _ Hs); exists d;
      simpl; auto 6].
  rewrite Ea, Eb, Ec, Ed. apply (parse_four_ok _ Hs Ea Eb Ec Ed).
Qed.

(** X4. Blanks around a field do not count: a line whose four fields carry
    spaces, tabs or line ends before and after them parses to what the line
    without them parses to, reading or rejection alike. *)
Theorem parse_sensor_line_ignores_blanks
  (a b c d pa qa pb qb pc qc pd qd : string) :
  no_comma a = true -> no_comma b = true ->
  no_comma c = true -> no_comma d = true ->
  all_chars Float.is_blank (pa ++ qa ++ pb ++ qb ++ pc ++ qc ++ pd ++ qd)
  = true ->
  parse_sensor_line (frame (padded pa a qa) (padded pb b qb)
                       (padded pc c qc) (padded pd d qd))
  = parse_sensor_line (frame a b c d).
Proof.
  intros Ha Hb Hc Hd H.
  rewrite !all_chars_app, !andb_true_iff in H.
  destruct H as (Hpa & Hqa & Hpb & Hqb & Hpc & Hqc & Hpd & Hqd).
  rewrite !parse_frame by (try assumption; now apply padded_no_comma).
  now rewrite !of_str_padded by assumption.
Qed.

Lemma parse_sensor_line_ignores_blanks_witness :
  parse_sensor_line (frame (padded " " "1.0" "") (padded " " "150" " ")
                       (padded "" "7.0" " ") (padded " " "22.0" " "))
  = parse_sensor_line (frame "1.0" "150" "7.0" "22.0").
Proof.
  exact (@parse_sensor_line_ignores_blanks "1.0" "150" "7.0" "22.0"
           " " "" " " " " "" " " " " " "
           eq_refl eq_refl eq_refl eq_refl eq_refl).
Defined.

(* ================================================================== *)
(** * Further results: the hardware functions on any result *)
(* ================================================================== *)

Lemma wrote_wrote (a b : list string) (w : World) :
  wrote b (wrote a w) = wrote (a ++ b) w.
Proof. unfold wrote. simpl. now rewrite <- app_assoc. Qed.

Lemma wrote_nil (w : World) : wrote [] w = w.
Proof.
  destruct w as [[o l] r q]. unfold wrote. simpl. now rewrite app_nil_r.
Qed.

Lemma write_open (data : string) (w : World) :
  is_open (port w) = true -> write data w = (Ok tt, wrote [data] w).
Proof. intros H. unfold write, wrote. now rewrite H. Qed.



Lemma mild_slice_to (n : nat) (v : json) : mild (slice_to n v).
Proof. intros e. destruct v; simpl; intros [= <-]; reflexivity. Qed.

Lemma mild_len (v : json) : mild (len v).
Proof. intros e. destruct v; simpl; intros [= <-]; reflexivity. Qed.

Lemma mild_has_prediction (v : json) : mild (has_prediction v).
Proof. intros e. apply has_prediction_exn. Qed.

(** What [send_to_arduino] writes, on any decoded value. *)
Lemma send_to_arduino_shape (repr : json -> string)
  (arduino : option handle) (result : json) (w : World) :
  exists lines,
    send_to_arduino repr arduino result w = (Ok tt, wrote lines w)
    /\ (lines = []
        \/ (exists r, lines = [r] /\ is_RISK_line r)
        \/ (exists r i, lines = [r; i] /\ is_RISK_line r /\ is_ISSUE_line i)).
Proof.
  unfold send_to_arduino, unusable, bindM.
  assert (forall v, (Ok tt, v) = (Ok tt, wrote [] v)) as Hnil
    by (intros v; now rewrite wrote_nil).
  assert (forall v : World,
            exists lines,
              (Ok tt, v) = (Ok tt, wrote lines v)
              /\ (lines = []
                  \/ (exists r, lines = [r] /\ is_RISK_line r)
                  \/ (exists r i, lines = [r; i] /\ is_RISK_line r
                                  /\ is_ISSUE_line i))) as Hnone
    by (intros v; exists []; split; [apply Hnil|now left]).
  destruct arduino as [[]|]; [|apply Hnone].
  destruct (is_open (port w)) eqn:Ho; [|apply Hnone].
  cbn [negb]. unfold try_exceptM, bindM, lift, when.
  destruct (has_prediction result) as [[|]|e] eqn:Hp;
    [| apply Hnone
     | rewrite handled by (eapply has_prediction_exn; eassumption);
       apply Hnone].
  destruct (getitem result "prediction") as [p|e] eqn:E1;
    [|rewrite handled by (eapply getitem_exn; eassumption); apply Hnone].
  destruct (getitem p "quality") as [q|e] eqn:E2;
    [|rewrite handled by (eapply getitem_exn; eassumption); apply Hnone].
  destruct (getitem p "confidence") as [c|e] eqn:E3;
    [|rewrite handled by (eapply getitem_exn; eassumption); apply Hnone].
  destruct (slice_to 12 q) as [label|e] eqn:E4;
    [|rewrite handled by (eapply mild_slice_to; eassumption); apply Hnone].
  set (risk := ("RISK:" ++ (fmt repr label ++ " " ++ fmt repr c ++ "%") ++ nl)%string).
  assert (is_RISK_line risk) as Hrisk by (now eexists).
  fold risk. rewrite (write_open risk w Ho).
  assert (forall e, is_Exception e = true ->
            exists lines,
              handleM e [([Exception], ret tt)] (wrote [risk] w)
              = (Ok tt, wrote lines w)
              /\ (lines = []
                  \/ (exists r, lines = [r] /\ is_RISK_line r)
                  \/ (exists r i, lines = [r; i] /\ is_RISK_line r
                                  /\ is_ISSUE_line i))) as Hstop.
  { intros e He. exists [risk]. rewrite handled by exact He.
    split; [reflexivity|]. right. left. now exists risk. }
  assert (forall text,
            exists lines,
              (let (r, w') := write (ISSUE_line text) (wrote [risk] w) in
               match r with
               | Ok a => (Ok a, w')
               | Raise e => handleM e [([Exception], ret tt)] w'
               end) = (Ok tt, wrote lines w)
              /\ (lines = []
                  \/ (exists r, lines = [r] /\ is_RISK_line r)
                  \/ (exists r i, lines = [r; i] /\ is_RISK_line r
                                  /\ is_ISSUE_line i))) as Hissue.
  { intros text. exists [risk; ISSUE_line text].
    rewrite write_open by exact Ho. rewrite wrote_wrote.
    split; [reflexivity|].
    right. right. exists risk, (ISSUE_line text).
    repeat split; [exact Hrisk|now exists text]. }
  cbn [bind].
  destruct (get result "disease_risks" JNone) as [risks|e] eqn:E5;
    [|apply Hstop; eapply mild_get; eassumption].
  destruct (if truthy risks
            then (risks' <- getitem result "disease_risks";;
                  n <- len risks';; Ok (0 <? n)%nat)%py
            else Ok false) as [[|]|e] eqn:E6.
  - destruct (getitem result "disease_risks") as [risks'|e] eqn:E7;
      [|apply Hstop; eapply getitem_exn; eassumption].
    destruct (getitem_int risks' 0) as [top|e] eqn:E8;
      [|apply Hstop; eapply mild_getitem_int; eassumption].
    destruct (getitem top "name") as [name|e] eqn:E9;
      [|apply Hstop; eapply getitem_exn; eassumption].
    destruct (slice_to 16 name) as [dn|e] eqn:E10;
      [|apply Hstop; eapply mild_slice_to; eassumption].
    apply (Hissue (fmt repr dn)).
  - apply (Hissue "Safe to use").
  - apply Hstop. destruct (truthy risks); [|discriminate].
    revert E6. apply mild_bind; [apply mild_getitem|intros x].
    apply mild_bind; [apply mild_len|intros n]. apply mild_ok.
Qed.

(** X6. [send_to_arduino] on any decoded value, well formed or not: it
    returns normally; it writes nothing, or a [RISK] line, or a [RISK] line
    and then an [ISSUE] line, and never a relay or buzzer command; the
    latch, the posted payloads and the state of the port stay as they
    were. *)
Theorem send_to_arduino_outcomes (repr : json -> string)
  (arduino : option handle) (result : json) (w : World) :
  let w' := snd (send_to_arduino repr arduino result w) in
  fst (send_to_arduino repr arduino result w) = Ok tt
  /\ relay_permanently_off w' = relay_permanently_off w
  /\ posted w' = posted w
  /\ is_open (port w') = is_open (port w)
  /\ sent RELAY_ON w' = sent RELAY_ON w
  /\ sent BUZZER_ON w' = sent BUZZER_ON w
  /\ exists lines,
       written (port w') = written (port w) ++ lines
       /\ (lines = []
           \/ (exists r, lines = [r] /\ is_RISK_line r)
           \/ (exists r i, lines = [r; i] /\ is_RISK_line r
                           /\ is_ISSUE_line i)).
Proof.
  cbv zeta.
  destruct (send_to_arduino_shape repr arduino result w) as (lines & Hs & Hl).
  rewrite Hs. cbn [fst snd].
  assert (forall s, is_RISK_line s -> s <> RELAY_ON /\ s <> BUZZER_ON) as Hr.
  { intros s [text ->]. split; simpl; discriminate. }
  assert (forall s, is_ISSUE_line s -> s <> RELAY_ON /\ s <> BUZZER_ON) as Hi.
  { intros s [text ->]. split; unfold ISSUE_line; simpl; discriminate. }
  assert (forall cmd,
            (forall s, In s lines -> s <> cmd) ->
            sent cmd (wrote lines w) = sent cmd w) as Hsent.
  { intros cmd Hn. rewrite sent_wrote.
    rewrite (proj1 (count_occ_not_In string_dec lines cmd)); [lia|].
    intros Hin. now apply (Hn cmd). }
  assert (forall s, In s lines -> s <> RELAY_ON /\ s <> BUZZER_ON) as Hin.
  { intros s Hs'. destruct Hl as [->|[(r & -> & Hrl)|(r & i & -> & Hrl & Hil)]].
    - destruct Hs'.
    - destruct Hs' as [<-|[]]. now apply Hr.
    - destruct Hs' as [<-|[<-|[]]]; [now apply Hr|now apply Hi]. }
  repeat split; try reflexivity.
  - apply Hsent. intros s Hs'. now apply Hin.
  - apply Hsent. intros s Hs'. now apply Hin.
  - exists lines. split; [reflexivity|exact Hl].
Qed.

(* ================================================================== *)
(** * Further results: the worker's turns *)
(* ================================================================== *)




(** What a turn leaves of the world but for the port and the latch. *)
Lemma control_hardware_returns (arduino : option handle) (result : json)
  (w : World) :
  fst (control_hardware arduino result w) = Ok tt
  /\ posted (snd (control_hardware arduino result w)) = posted w.
Proof.
  rewrite control_hardware_spec. cbn [fst snd]. split; [reflexivity|].
  destruct (usable arduino w); [|reflexivity].
  unfold actuate. destruct (classification result) as [[| |]|]; try reflexivity.
  now destruct (relay_permanently_off w).
Qed.

Lemma send_to_arduino_returns (repr : json -> string)
  (arduino : option handle) (result : json) (w : World) :
  fst (send_to_arduino repr arduino result w) = Ok tt
  /\ posted (snd (send_to_arduino repr arduino result w)) = posted w.
Proof.
  destruct (send_to_arduino_shape repr arduino result w) as (lines & Hs & _).
  rewrite Hs. now split.
Qed.

Lemma empty_iteration (repr : json -> string) (arduino : option handle)
  (w : World) :
  prediction_iteration repr arduino Empty w = (Ok tt, w).
Proof. reflexivity. Qed.

(** The turn of a result the worker reads to the end: the payload is
    posted, then the hardware is driven, then the display. *)
Lemma read_iteration (repr : json -> string) (arduino : option handle)
  (item : BatchItem) (result : json) (w : World) :
  report result = Ok tt ->
  prediction_iteration repr arduino
    (Got item (Response 200 (Some result))) w
  = (Ok tt,
     snd (send_to_arduino repr arduino result
            (snd (control_hardware arduino result
                    (posted_one (data item) w))))).
Proof.
  intros Hr. unfold prediction_iteration, try_exceptM, bindM, post.
  cbn [Z.eqb Pos.eqb json_of lift]. rewrite Hr.
  change {| port := port w; relay_permanently_off := relay_permanently_off w;
            posted := posted w ++ [data item] |}
    with (posted_one (data item) w).
  destruct (control_hardware_returns arduino result
              (posted_one (data item) w)) as [H1 _].
  destruct (control_hardware arduino result (posted_one (data item) w))
    as [r1 w1]. cbn [fst snd] in *. subst r1.
  destruct (send_to_arduino_returns repr arduino result w1) as [H2 _].
  destruct (send_to_arduino repr arduino result w1) as [r2 w2].
  cbn [fst snd] in *. now subst r2.
Qed.

(** A tame turn is an empty one, a failed attempt or a result read to the
    end. *)
Lemma tame_cases (t : turn) :
  tame t = true ->
  t = Empty
  \/ (exists item net, t = Got item net /\ attempt_fails net)
  \/ (exists item result,
        t = Got item (Response 200 (Some result)) /\ report result = Ok tt).
Proof.
  destruct t as [|item [e|status_code [result|]]]; simpl; intros H.
  - now left.
  - right. left. now exists item, (PostRaises e).
  - destruct (Z.eq_dec status_code 200) as [->|Hs].
    + destruct (report result) as [[]|e] eqn:Hr.
      * right. right. now exists item, result.
      * right. left. exists item, (Response 200 (Some result)). split; [easy|].
        simpl. right. right. now exists result, e.
    + right. left. exists item, (Response status_code (Some result)).
      split; [easy|]. simpl. now left.
  - right. left. exists item, (Response status_code None).
    split; [easy|]. simpl. right. now left.
Qed.

Lemma tame_iteration (repr : json -> string) (arduino : option handle)
  (t : turn) (w : World) :
  tame t = true ->
  fst (prediction_iteration repr arduino t w) = Ok tt
  /\ posted (snd (prediction_iteration repr arduino t w))
     = posted w ++ map data (items_of [t]).
Proof.
  intros Ht.
  destruct (tame_cases _ Ht)
    as [->|[(item & net & -> & Hf)|(item & result & -> & Hr)]].
  - rewrite empty_iteration. simpl. now rewrite app_nil_r.
  - rewrite (@failed_iteration repr arduino item net w Hf). now split.
  - rewrite (@read_iteration repr arduino item result w Hr). cbn [fst snd].
    split; [reflexivity|].
    destruct (control_hardware_returns arduino result
                (posted_one (data item) w)) as [_ H1].
    destruct (send_to_arduino_returns repr arduino result
                (snd (control_hardware arduino result
                        (posted_one (data item) w)))) as [_ H2].
    now rewrite H2, H1.
Qed.

(** X8. A turn of the prediction worker whose post raises nothing worse
    than an [Exception] always ends normally, and posts the payload of the
    item it got once, or nothing when the queue was empty, in which case the
    state is what it was; when the result is read to the end, the state
    after the turn is what [control_hardware] and then [send_to_arduino]
    make of it, in that order. *)
Theorem prediction_iteration_turn (repr : json -> string)
  (arduino : option handle) (t : turn) (w : World) :
  tame t = true ->
  let w' := snd (prediction_iteration repr arduino t w) in
  fst (prediction_iteration repr arduino t w) = Ok tt
  /\ posted w' = posted w ++ map data (items_of [t])
  /\ (t = Empty -> w' = w)
  /\ (forall item result,
        t = Got item (Response 200 (Some result)) ->
        report result = Ok tt ->
        w' = snd (send_to_arduino repr arduino result
                    (snd (control_hardware arduino result
                            (posted_one (data item) w))))).
Proof.
  intros Ht. cbv zeta.
  destruct (tame_iteration repr arduino t w Ht) as [H1 H2].
  repeat split; try assumption.
  - intros ->. reflexivity.
  - intros item result -> Hr. now rewrite (@read_iteration repr arduino item result w Hr).
Qed.

Lemma prediction_iteration_turn_witness :
  let t := Got sample_item
             (Response 200 (Some (sample_result "MEDIUM RISK" []))) in
  let w' := snd (prediction_iteration repr_sample (Some Arduino) t
                   sample_world) in
  fst (prediction_iteration repr_sample (Some Arduino) t sample_world) = Ok tt
  /\ posted w' = posted sample_world ++ map data (items_of [t])
  /\ (t = Empty -> w' = sample_world)
  /\ (forall item result,
        t = Got item (Response 200 (Some result)) ->
        report result = Ok tt ->
        w' = snd (send_to_arduino repr_sample (Some Arduino) result
                    (snd (control_hardware (Some Arduino) result
                            (posted_one (data item) sample_world))))).
Proof.
  exact (@prediction_iteration_turn repr_sample (Some Arduino)
           (Got sample_item
              (Response 200 (Some (sample_result "MEDIUM RISK" []))))
           sample_world eq_refl).
Defined.

Lemma items_of_cons (t : turn) (turns : list turn) :
  items_of (t :: turns) = items_of [t] ++ items_of turns.
Proof. unfold items_of. simpl. now rewrite app_nil_r. Qed.

Lemma tame_thread (repr : json -> string) (arduino : option handle)
  (turns : list turn) (w : World) :
  forallb tame turns = true ->
  fst (prediction_thread repr arduino turns w) = Ok tt
  /\ posted (snd (prediction_thread repr arduino turns w))
     = posted w ++ map data (items_of turns).
Proof.
  revert w. induction turns as [|t turns IH]; intros w H.
  - simpl. now rewrite app_nil_r.
  - simpl in H. apply andb_true_iff in H as [Ht Hs].
    cbn [prediction_thread]. unfold bindM.
    destruct (tame_iteration repr arduino t w Ht) as [H1 H2].
    destruct (prediction_iteration repr arduino t w) as [r w1].
    cbn [fst snd] in *. subst r.
    destruct (IH w1 Hs) as [H3 H4]. split; [exact H3|].
    now rewrite H4, H2, (items_of_cons t turns), map_app, app_assoc.
Qed.

(** X9. Reader and worker together: when the worker gets the items the
    reader put on the batch queue, in that order, and no post raises worse
    than an [Exception], the payloads posted to the prediction endpoint are
    the fifth, the tenth, ... of the accepted readings, each as parsed and
    each once, whatever the answers. *)
Theorem pipeline_posts_every_fifth (repr : json -> string)
  (arduino : option handle) (polls : list poll) (turns : list turn)
  (w : World) :
  forallb tame turns = true ->
  items_of turns = prediction_queue (arduino_reader_thread polls) ->
  fst (prediction_thread repr arduino turns w) = Ok tt
  /\ posted (snd (prediction_thread repr arduino turns w))
     = posted w ++ every_fifth (accepted polls).
Proof.
  intros Ht Hi. destruct (tame_thread repr arduino turns w Ht) as [H1 H2].
  split; [exact H1|]. rewrite H2, Hi.
  now rewrite (batched_every_fifth (reader_batched polls)).
Qed.

Lemma pipeline_posts_every_fifth_witness :
  let polls := map (fun now => Line "1.0,150,7.0,22.0" now)
                 ["t1"; "t2"; "t3"; "t4"; "t5"; "t6"] in
  let turns := [Empty;
                Got {| data := {| values := values (data sample_item);
                                  time := "t5" |};
                       count := 5; batch_time := "t5" |}
                  (PostRaises Timeout)] in
  fst (prediction_thread repr_sample (Some Arduino) turns sample_world) = Ok tt
  /\ posted (snd (prediction_thread repr_sample (Some Arduino) turns
                    sample_world))
     = posted sample_world ++ every_fifth (accepted polls).
Proof.
  apply (@pipeline_posts_every_fifth repr_sample (Some Arduino)).
  - reflexivity.
  - vm_compute. reflexivity.
Defined.

(* ================================================================== *)
(** * Further results: the sender of instant updates *)
(* ================================================================== *)








(* ================================================================== *)
(** * The server: issues and out-of-range entries *)
(* ================================================================== *)

(** X11. [check_parameter_issues] never returns an empty list: it returns
    the one text "All OK" exactly when none of its four checks fires, and
    otherwise the texts of the checks that fire, in the order of the
    checks, each once. *)
Theorem check_parameter_issues_shape (turbidity tds ph temp : Float.float) :
  let issues := check_parameter_issues turbidity tds ph temp in
  issues <> []
  /\ (In "All OK" issues -> issues = ["All OK"])
  /\ (issues = ["All OK"] \/ sublist issues ISSUES)
  /\ (In "Turbidity High" issues
      <-> float_gt turbidity (Float.of_int 5) = true)
  /\ (In "TDS High" issues <-> float_gt tds (Float.of_int 500) = true)
  /\ (In "pH Out Range" issues
      <-> float_lt ph six_and_a_half = true
          \/ float_gt ph eight_and_a_half = true)
  /\ (In "Temp High" issues <-> float_gt temp (Float.of_int 50) = true).
Proof.
  cbv zeta. unfold check_parameter_issues.
  rewrite <- (orb_true_iff (float_lt ph six_and_a_half)).
  destruct (float_gt turbidity (Float.of_int 5));
    destruct (float_gt tds (Float.of_int 500));
    destruct (float_lt ph six_and_a_half || float_gt ph eight_and_a_half);
    destruct (float_gt temp (Float.of_int 50));
    cbn [app In sublist ISSUES];
    repeat split; try discriminate; try tauto;
    try (intros H; repeat destruct H as [H|H]; try discriminate H; tauto);
    try (right; cbn; tauto).
Qed.

(** X12. The list [out_of_range] that both posting endpoints build makes
    the same four checks as [check_parameter_issues]: it is empty exactly
    when the issues are "All OK", and otherwise its entries stand for the
    issues, one for one and in the same order. *)
Theorem out_of_range_matches_issues (turbidity tds ph temp : Float.float) :
  check_parameter_issues turbidity tds ph temp
  = match out_of_range_of turbidity tds ph temp with
    | [] => ["All OK"]
    | entries => map issue_of entries
    end.
Proof.
  unfold check_parameter_issues, out_of_range_of.
  destruct (float_gt turbidity (Float.of_int 5));
    destruct (float_gt tds (Float.of_int 500));
    destruct (float_lt ph six_and_a_half || float_gt ph eight_and_a_half);
    destruct (float_gt temp (Float.of_int 50));
    reflexivity.
Qed.

(* ================================================================== *)
(** * The server: grading the predictions *)
(* ================================================================== *)

Lemma grade_spec (i : nat) (x : Float.float) (st : tally) :
  grade i x st
  = match nth_error DISEASE_NAMES i with
    | Some name =>
        Ok {| disease_results := disease_results st ++ [graded name x];
              high_risk := high_risk st || is_top (level_of x);
              medium_risk := medium_risk st || is_medium (level_of x) |}
    | None => Raise IndexError
    end.
Proof.
  unfold grade, graded, level_of, list_getitem.
  destruct (float_lt x (Float.of_int 40));
    [|destruct (float_lt x (Float.of_int 55))];
    destruct (nth_error DISEASE_NAMES i); cbn [bind]; try reflexivity;
    cbn [disease_results high_risk medium_risk is_top is_medium label_of
         level_name];
    now rewrite ?orb_false_r, ?orb_true_r.
Qed.

Lemma names_nth (i : nat) :
  (i < 10)%nat -> exists name, nth_error DISEASE_NAMES i = Some name
                               /\ skipn i DISEASE_NAMES
                                  = name :: skipn (S i) DISEASE_NAMES.
Proof.
  intros H.
  do 10 (destruct i as [|i]; [eexists; split; reflexivity|]).
  lia.
Qed.

Lemma names_none (i : nat) :
  (10 <= i)%nat -> nth_error DISEASE_NAMES i = None.
Proof.
  intros H. apply nth_error_None. exact H.
Qed.

(** The loop from index [i] on, when the names last. *)
Lemma grade_all_ok (row : list Float.float) :
  forall (i : nat) (st : tally),
    (i + length row <= 10)%nat ->
    grade_all i row st
    = Ok {| disease_results :=
              disease_results st ++ graded_row (skipn i DISEASE_NAMES) row;
            high_risk :=
              high_risk st || existsb (fun x => is_top (level_of x)) row;
            medium_risk :=
              medium_risk st || existsb (fun x => is_medium (level_of x)) row |}.
Proof.
  induction row as [|x row IH]; intros i st H.
  - cbn [grade_all existsb]. unfold graded_row.
    rewrite combine_nil, ?orb_false_r. cbn [map]. rewrite app_nil_r.
    now destruct st.
  - cbn [length] in H. cbn [grade_all]. rewrite grade_spec.
    destruct (names_nth (i := i)) as (name & Hn & Hs); [lia|].
    rewrite Hn. cbn [bind]. rewrite IH by (cbn [length]; lia).
    cbn [disease_results high_risk medium_risk existsb].
    rewrite Hs. unfold graded_row. cbn [combine map fst snd].
    rewrite <- app_assoc, !orb_assoc. reflexivity.
Qed.

(** The loop from index [i] on, when the row is longer than the names. *)
Lemma grade_all_short (row : list Float.float) :
  forall (i : nat) (st : tally),
    (i <= 10)%nat -> (10 < i + length row)%nat ->
    grade_all i row st = Raise IndexError.
Proof.
  induction row as [|x row IH]; intros i st Hi H.
  - cbn [length] in H. lia.
  - cbn [length] in H. cbn [grade_all]. rewrite grade_spec.
    destruct (Nat.eq_dec i 10) as [->|Hne].
    + reflexivity.
    + destruct (names_nth (i := i)) as (name & Hn & _); [lia|].
      rewrite Hn. cbn [bind]. apply IH; lia.
Qed.

Lemma worst_level_top (row : list Float.float) :
  existsb (fun x => is_top (level_of x)) row = is_top (worst_level row).
Proof.
  induction row as [|x row IH]; [reflexivity|].
  cbn [existsb worst_level fold_right]. fold (worst_level row). rewrite IH.
  now destruct (level_of x), (worst_level row).
Qed.

Lemma worst_level_medium (row : list Float.float) :
  is_top (worst_level row) = false ->
  existsb (fun x => is_medium (level_of x)) row = is_medium (worst_level row).
Proof.
  induction row as [|x row IH]; [reflexivity|].
  cbn [existsb worst_level fold_right]. fold (worst_level row).
  destruct (level_of x), (worst_level row); cbn; intros H;
    try discriminate H; try reflexivity;
    rewrite IH; reflexivity.
Qed.

Lemma overall_label (row : list Float.float) :
  (if existsb (fun x => is_top (level_of x)) row then HIGH_RISK
   else if existsb (fun x => is_medium (level_of x)) row then MEDIUM_RISK
   else LOW_RISK)
  = label_of (worst_level row).
Proof.
  rewrite worst_level_top.
  destruct (is_top (worst_level row)) eqn:Ht.
  - now destruct (worst_level row).
  - rewrite worst_level_medium by exact Ht.
    now destruct (worst_level row).
Qed.

Lemma predict_disease_risks_cases (predict : predictor)
  (turbidity tds ph temp : Float.float) :
  predict_disease_risks (Some predict) turbidity tds ph temp
  = match predict turbidity tds ph temp with
    | Raise e =>
        if is_Exception e then Ok (None, "Prediction failed") else Raise e
    | Ok row =>
        if (length row <=? 10)%nat
        then Ok (Some (graded_row DISEASE_NAMES row),
                 label_of (worst_level row))
        else Ok (None, "Prediction failed")
    end.
Proof.
  unfold predict_disease_risks.
  destruct (predict turbidity tds ph temp) as [row|e]; cbn [bind].
  - destruct (length row <=? 10)%nat eqn:Hl.
    + apply Nat.leb_le in Hl.
      rewrite grade_all_ok by (cbn; lia).
      cbn [bind try_except disease_results high_risk medium_risk orb app skipn].
      now rewrite overall_label.
    + apply Nat.leb_gt in Hl.
      rewrite grade_all_short by (cbn; lia). reflexivity.
  - cbn [try_except Py.handle catches existsb matches].
    now destruct (is_Exception e).
Qed.

(** X13. [predict_disease_risks] in closed form. Without a model it returns
    [None] and "Model not loaded". With one, an exception under [Exception]
    and a row of more than ten percentages (the names run out) both give
    [None] and "Prediction failed"; any other exception goes on to the
    caller. A row of at most ten percentages gives one entry for each
    percentage, with the name of its position, the percentage rounded to
    one place, and the grade: low below 40, medium below 55, high
    otherwise (a NaN is high); the overall label is that of the worst
    grade in the row. *)
Theorem predict_disease_risks_outcomes (model : option predictor)
  (turbidity tds ph temp : Float.float) :
  predict_disease_risks model turbidity tds ph temp
  = match model with
    | None => Ok (None, "Model not loaded")
    | Some predict =>
        match predict turbidity tds ph temp with
        | Raise e =>
            if is_Exception e then Ok (None, "Prediction failed") else Raise e
        | Ok row =>
            if (length row <=? 10)%nat
            then Ok (Some (graded_row DISEASE_NAMES row),
                     label_of (worst_level row))
            else Ok (None, "Prediction failed")
        end
    end.
Proof.
  destruct model as [predict|]; [|reflexivity].
  apply predict_disease_risks_cases.
Qed.

(* ================================================================== *)
(** * The server's labels as the worker reads them *)
(* ================================================================== *)

Lemma classifier_inverts_label (r : risk) : risk_level_of (label_of r) = r.
Proof. now destruct r. Qed.

Lemma graded_status (name : string) (x : Float.float) :
  getitem (graded name x) "status" = Ok (JStr (label_of (level_of x))).
Proof. reflexivity. Qed.

Lemma graded_level (name : string) (x : Float.float) :
  getitem (graded name x) "level" = Ok (JStr (level_name (level_of x))).
Proof. reflexivity. Qed.

Lemma graded_name (name : string) (x : Float.float) :
  getitem (graded name x) "name" = Ok (JStr name).
Proof. reflexivity. Qed.

Lemma graded_row_length (names : list string) (row : list Float.float) :
  (length row <= length names)%nat ->
  length (graded_row names row) = length row.
Proof.
  intros H. unfold graded_row. rewrite length_map, length_combine. lia.
Qed.

Lemma graded_row_reads (row : list Float.float) :
  forall names : list string,
    (length row <= length names)%nat ->
    Forall2
      (fun d x =>
         getitem d "status" = Ok (JStr (label_of (level_of x)))
         /\ getitem d "level" = Ok (JStr (level_name (level_of x))))
      (graded_row names row) row.
Proof.
  induction row as [|x row IH]; intros names H.
  - unfold graded_row. rewrite combine_nil. constructor.
  - destruct names as [|name names]; [cbn in H; lia|].
    unfold graded_row. cbn [combine map fst snd]. constructor.
    + split; reflexivity.
    + apply IH. cbn in H. lia.
Qed.

(** X14. The labels [predict_disease_risks] writes are the ones the
    worker's classifier reads back: for a row of at most ten percentages,
    [risk_level_of] of the overall label is the worst grade of the row,
    and [risk_level_of] of the status of each entry is the grade of its
    percentage, which is also what the entry's level names. *)
Theorem labels_read_back (predict : predictor)
  (turbidity tds ph temp : Float.float) (row : list Float.float) :
  predict turbidity tds ph temp = Ok row ->
  (length row <= 10)%nat ->
  exists disease_results overall_risk,
    predict_disease_risks (Some predict) turbidity tds ph temp
    = Ok (Some disease_results, overall_risk)
    /\ risk_level_of overall_risk = worst_level row
    /\ Forall2
         (fun d x =>
            exists status,
              getitem d "status" = Ok (JStr status)
              /\ risk_level_of status = level_of x
              /\ getitem d "level" = Ok (JStr (level_name (level_of x))))
         disease_results row.
Proof.
  intros Hp Hl. rewrite predict_disease_risks_cases, Hp.
  apply Nat.leb_le in Hl. rewrite Hl. apply Nat.leb_le in Hl.
  exists (graded_row DISEASE_NAMES row), (label_of (worst_level row)).
  split; [reflexivity|]. split; [apply classifier_inverts_label|].
  eapply Forall2_impl; [|apply graded_row_reads; exact Hl].
  intros d x [Hs Hv]. exists (label_of (level_of x)).
  split; [exact Hs|]. split; [apply classifier_inverts_label|exact Hv].
Qed.

Lemma labels_read_back_witness :
  exists disease_results overall_risk,
    predict_disease_risks
      (Some (fun _ _ _ _ => Ok [Float.of_int 60; Float.of_int 45; Float.of_int 10]))
      (Float.of_int 1) (Float.of_int 300) (Float.of_int 7) (Float.of_int 25)
    = Ok (Some disease_results, overall_risk)
    /\ risk_level_of overall_risk
       = worst_level [Float.of_int 60; Float.of_int 45; Float.of_int 10]
    /\ Forall2
         (fun d x =>
            exists status,
              getitem d "status" = Ok (JStr status)
              /\ risk_level_of status = level_of x
              /\ getitem d "level" = Ok (JStr (level_name (level_of x))))
         disease_results [Float.of_int 60; Float.of_int 45; Float.of_int 10].
Proof.
  apply (@labels_read_back
           (fun _ _ _ _ => Ok [Float.of_int 60; Float.of_int 45; Float.of_int 10])
           (Float.of_int 1) (Float.of_int 300) (Float.of_int 7)
           (Float.of_int 25)
           [Float.of_int 60; Float.of_int 45; Float.of_int 10]).
  - reflexivity.
  - simpl. lia.
Defined.

(* ================================================================== *)
(** * The server: a posted batch, and the worker that reads the reply *)
(* ================================================================== *)

Lemma names_at_risk_graded (names : list string) :
  forall row : list Float.float,
    names_at_risk (graded_row names row) = Ok (names_above_low names row).
Proof.
  induction names as [|name names IH]; intros row; [reflexivity|].
  destruct row as [|x row]; [reflexivity|].
  unfold graded_row. cbn [combine map fst snd names_at_risk].
  fold (graded_row names row).
  rewrite graded_level, graded_name. cbn [bind names_above_low].
  rewrite IH.
  now destruct (level_of x).
Qed.

Lemma report_disease_graded (name : string) (x : Float.float) :
  report_disease (graded name x) = Ok tt.
Proof.
  unfold report_disease. rewrite graded_level, graded_name, graded_status.
  cbn [bind]. now destruct (eq_str (JStr (level_name (level_of x))) "high").
Qed.

Lemma report_graded_row (names : list string) (row : list Float.float) :
  for_each (graded_row names row) report_disease = Ok tt.
Proof.
  unfold graded_row.
  induction (combine names row) as [|[name x] l IH]; [reflexivity|].
  cbn [map for_each fst snd]. rewrite report_disease_graded. exact IH.
Qed.

Lemma issues_first (turbidity tds ph temp : Float.float) :
  exists first rest,
    check_parameter_issues turbidity tds ph temp = first :: rest.
Proof.
  unfold check_parameter_issues.
  destruct (float_gt turbidity (Float.of_int 5));
    destruct (float_gt tds (Float.of_int 500));
    destruct (float_lt ph six_and_a_half || float_gt ph eight_and_a_half);
    destruct (float_gt temp (Float.of_int 50));
    cbn [app]; eexists; eexists; reflexivity.
Qed.

Lemma response_classification (turbidity tds ph temp : Float.float)
  (reading_time : json) (overall_risk : string)
  (disease_results diseases : list json) (issues : list string)
  (timestamp : string) :
  classification
    (prediction_response turbidity tds ph temp reading_time overall_risk
       disease_results diseases issues timestamp)
  = Some (risk_level_of overall_risk).
Proof. reflexivity. Qed.

Lemma response_report (turbidity tds ph temp : Float.float)
  (reading_time : json) (overall_risk : string)
  (disease_results diseases : list json) (issues : list string)
  (timestamp : string) :
  issues <> [] ->
  for_each disease_results report_disease = Ok tt ->
  report
    (prediction_response turbidity tds ph temp reading_time overall_risk
       disease_results diseases issues timestamp)
  = Ok tt.
Proof.
  intros Hi Hd. unfold report.
  set (response := prediction_response _ _ _ _ _ _ _ _ _ _).
  set (prediction := JDict [ ("quality", JStr overall_risk);
                             ("confidence", JFloat (Float.of_int 95)) ]).
  set (health := JDict [ ("diseases", JList diseases);
                         ("risk_factors", JList (map JStr issues)) ]).
  change (getitem response "prediction") with (@Ok json prediction).
  cbn [bind].
  change (getitem prediction "quality") with (@Ok json (JStr overall_risk)).
  change (getitem prediction "confidence")
    with (@Ok json (JFloat (Float.of_int 95))).
  cbn [bind].
  change (get response "health_risks" (JDict [])) with (@Ok json health).
  change (getitem response "health_risks") with (@Ok json health).
  change (get response "disease_risks" JNone)
    with (@Ok json (JList disease_results)).
  change (getitem response "disease_risks")
    with (@Ok json (JList disease_results)).
  cbn [bind].
  change (get health "risk_factors" JNone)
    with (@Ok json (JList (map JStr issues))).
  change (getitem health "risk_factors")
    with (@Ok json (JList (map JStr issues))).
  cbn [bind].
  destruct issues as [|first rest]; [contradiction|].
  cbn [map truthy getitem_int list_getitem nth_error bind iter].
  destruct (negb (eq_str (JStr first) "All OK")); cbn [bind];
    (destruct disease_results as [|d ds]; [reflexivity|]);
    cbn [truthy iter bind]; exact Hd.
Qed.

(** What the endpoint does with a row that the names cover, once the
    reading is logged. *)
Lemma receive_sensor_data_served (predict : predictor)
  (turbidity tds ph temp : Float.float) (reading_time : json)
  (now : Float.float) (timestamp : string)
  (latest_sensor_data : list (string * json)) (row : list Float.float) :
  predict turbidity tds ph temp = Ok row ->
  (length row <= 10)%nat ->
  receive_sensor_data (Some predict) turbidity tds ph temp reading_time
    (Ok tt) now timestamp latest_sensor_data
  = (Ok (Success
           (prediction_response turbidity tds ph temp reading_time
              (label_of (worst_level row)) (graded_row DISEASE_NAMES row)
              (names_above_low DISEASE_NAMES row)
              (check_parameter_issues turbidity tds ph temp) timestamp)),
     predicted_state turbidity tds ph temp (label_of (worst_level row))
       (names_above_low DISEASE_NAMES row) (graded_row DISEASE_NAMES row)
       now reading_time (out_of_range_of turbidity tds ph temp)).
Proof.
  intros Hp Hl. unfold receive_sensor_data.
  rewrite predict_disease_risks_cases, Hp.
  apply Nat.leb_le in Hl. rewrite Hl.
  cbn [bind]. rewrite names_at_risk_graded. reflexivity.
Qed.

(** X15. A batch that [receive_sensor_data] can predict and log: the model
    gives a row of at most ten percentages and logging does not raise.
    The reply has status 200; the worker can read its body to the end and
    classifies it as the worst grade of the row; the body carries the
    graded entries, and the stored state takes the overall label, the
    names of the diseases graded medium or high, and the out-of-range
    entries of the reading. *)
Theorem receive_sensor_data_success (predict : predictor)
  (turbidity tds ph temp : Float.float) (reading_time : json)
  (logged : result unit) (now : Float.float) (timestamp : string)
  (latest_sensor_data : list (string * json)) (row : list Float.float) :
  predict turbidity tds ph temp = Ok row ->
  (length row <= 10)%nat ->
  logged = Ok tt ->
  let out := receive_sensor_data (Some predict) turbidity tds ph temp
               reading_time logged now timestamp latest_sensor_data in
  exists body,
    fst out = Ok (Success body)
    /\ report body = Ok tt
    /\ classification body = Some (worst_level row)
    /\ getitem body "disease_risks" = Ok (JList (graded_row DISEASE_NAMES row))
    /\ lookup "quality" (snd out) = Some (JStr (label_of (worst_level row)))
    /\ lookup "diseases" (snd out)
       = Some (JList (names_above_low DISEASE_NAMES row))
    /\ lookup "disease_details" (snd out)
       = Some (JList (graded_row DISEASE_NAMES row))
    /\ lookup "out_of_range" (snd out)
       = Some (JList (out_of_range_of turbidity tds ph temp)).
Proof.
  intros Hp Hl ->. cbv zeta.
  rewrite (@receive_sensor_data_served predict turbidity tds ph temp
             reading_time now timestamp latest_sensor_data row Hp Hl).
  cbn [fst snd]. eexists. split; [reflexivity|].
  split.
  { apply response_report.
    - destruct (issues_first turbidity tds ph temp) as (first & rest & ->).
      discriminate.
    - apply report_graded_row. }
  split.
  { rewrite response_classification. now rewrite classifier_inverts_label. }
  repeat split; reflexivity.
Qed.

Lemma receive_sensor_data_success_witness :
  let predict : predictor :=
    fun _ _ _ _ => Ok [Float.of_int 60; Float.of_int 45; Float.of_int 10] in
  let row := [Float.of_int 60; Float.of_int 45; Float.of_int 10] in
  let out := receive_sensor_data (Some predict) (Float.of_int 7)
               (Float.of_int 300) (Float.of_int 7) (Float.of_int 25)
               (JStr "12:00:00") (Ok tt) (Float.of_int 0)
               "2024-01-01 12:00:00" latest_sensor_data_start in
  exists body,
    fst out = Ok (Success body)
    /\ report body = Ok tt
    /\ classification body = Some (worst_level row)
    /\ getitem body "disease_risks" = Ok (JList (graded_row DISEASE_NAMES row))
    /\ lookup "quality" (snd out) = Some (JStr (label_of (worst_level row)))
    /\ lookup "diseases" (snd out)
       = Some (JList (names_above_low DISEASE_NAMES row))
    /\ lookup "disease_details" (snd out)
       = Some (JList (graded_row DISEASE_NAMES row))
    /\ lookup "out_of_range" (snd out)
       = Some (JList (out_of_range_of (Float.of_int 7) (Float.of_int 300)
                        (Float.of_int 7) (Float.of_int 25))).
Proof.
  apply (@receive_sensor_data_success
           (fun _ _ _ _ => Ok [Float.of_int 60; Float.of_int 45; Float.of_int 10])
           (Float.of_int 7) (Float.of_int 300) (Float.of_int 7)
           (Float.of_int 25) (JStr "12:00:00") (Ok tt) (Float.of_int 0)
           "2024-01-01 12:00:00" latest_sensor_data_start
           [Float.of_int 60; Float.of_int 45; Float.of_int 10]).
  - reflexivity.
  - simpl. lia.
  - reflexivity.
Defined.

(** X16. [receive_sensor_data] changes the stored state only when it
    answers 200. Status 500 means the prediction gave no result; once the
    inputs are read, status 400 can only come from an exception under
    [Exception] raised while logging; an exception that leaves the
    endpoint is not under [Exception]. In all three cases
    [latest_sensor_data] is what it was. *)
Theorem receive_sensor_data_failure_keeps_state (model : option predictor)
  (turbidity tds ph temp : Float.float) (reading_time : json)
  (logged : result unit) (now : Float.float) (timestamp : string)
  (latest_sensor_data : list (string * json)) :
  let out := receive_sensor_data model turbidity tds ph temp reading_time
               logged now timestamp latest_sensor_data in
  match fst out with
  | Ok (Success _) =>
      exists disease_results overall_risk,
        predict_disease_risks model turbidity tds ph temp
        = Ok (Some disease_results, overall_risk)
        /\ logged = Ok tt
  | Ok ModelFailed =>
      snd out = latest_sensor_data
      /\ exists text, predict_disease_risks model turbidity tds ph temp
                      = Ok (None, text)
  | Ok (BadRequest e) =>
      snd out = latest_sensor_data
      /\ logged = Raise e /\ is_Exception e = true
  | Raise e =>
      snd out = latest_sensor_data /\ is_Exception e = false
  end.
Proof.
  cbv zeta. unfold receive_sensor_data.
  rewrite predict_disease_risks_outcomes.
  destruct model as [predict|].
  2:{ cbn [fst snd]. split; [reflexivity|]. now eexists. }
  destruct (predict turbidity tds ph temp) as [row|e].
  2:{ destruct (is_Exception e) eqn:He.
      - cbn [fst snd]. split; [reflexivity|]. now eexists.
      - unfold refused. rewrite He. cbn [fst snd]. now split. }
  destruct (length row <=? 10)%nat.
  2:{ cbn [fst snd]. split; [reflexivity|]. now eexists. }
  destruct logged as [[]|e].
  - cbn [bind]. rewrite names_at_risk_graded. cbn [fst snd].
    now eexists; eexists.
  - cbn [bind]. unfold refused.
    destruct (is_Exception e) eqn:He; cbn [fst snd]; now repeat split.
Qed.

(* ================================================================== *)
(** * From the model's percentages to the relay *)
(* ================================================================== *)




(* ================================================================== *)
(** * The server: live updates and the stored prediction *)
(* ================================================================== *)

Lemma lookup_dict_set (k k' : string) (v : json) (d : list (string * json)) :
  lookup k (dict_set k' v d)
  = if String.eqb k k' then Some v else lookup k d.
Proof.
  induction d as [|[k0 v0] d IH].
  - reflexivity.
  - cbn [dict_set]. destruct (String.eqb k' k0) eqn:E0.
    + apply String.eqb_eq in E0. subst k0. cbn [lookup].
      now destruct (String.eqb k k').
    + cbn [lookup]. rewrite IH.
      destruct (String.eqb k k0) eqn:E1; [|reflexivity].
      apply String.eqb_eq in E1. subst k0.
      now rewrite String.eqb_sym, E0.
Qed.

Lemma not_live_key (k : string) :
  ~ In k live_keys ->
  String.eqb k "turbidity" = false /\ String.eqb k "tds" = false
  /\ String.eqb k "ph" = false /\ String.eqb k "temperature" = false
  /\ String.eqb k "last_reading_time" = false /\ String.eqb k "time" = false
  /\ String.eqb k "out_of_range" = false.
Proof.
  intros H. repeat split; apply String.eqb_neq; intros ->; apply H;
    cbn; tauto.
Qed.

Lemma update_keeps (turbidity tds ph temp : Float.float)
  (reading_time : json) (now : Float.float) (d : list (string * json))
  (k : string) :
  ~ In k live_keys ->
  lookup k (snd (update_sensor_reading turbidity tds ph temp reading_time
                   now d))
  = lookup k d.
Proof.
  intros H. destruct (not_live_key H) as (H1 & H2 & H3 & H4 & H5 & H6 & H7).
  unfold update_sensor_reading, dict_update.
  cbn [snd fold_left fst]. rewrite !lookup_dict_set.
  now rewrite H1, H2, H3, H4, H5, H6, H7.
Qed.

Lemma after_updates_keeps (updates : list live) :
  forall (d : list (string * json)) (k : string),
    ~ In k live_keys ->
    lookup k (after_updates updates d) = lookup k d.
Proof.
  unfold after_updates.
  induction updates as [|u updates IH]; intros d k H; [reflexivity|].
  cbn [fold_left]. rewrite IH by exact H. now apply update_keeps.
Qed.

(** X18. [update_sensor_reading] always answers 200, with the
    out-of-range entries of the reading in the body; in the stored state
    it writes its seven keys and nothing else, so the quality, the
    diseases and the details of the last prediction stay as they were. *)
Theorem update_sensor_reading_keeps_prediction
  (turbidity tds ph temp : Float.float) (reading_time : json)
  (now : Float.float) (latest_sensor_data : list (string * json)) :
  let out := update_sensor_reading turbidity tds ph temp reading_time now
               latest_sensor_data in
  (exists body,
     fst out = Success body
     /\ getitem body "out_of_range_parameters"
        = Ok (JList (out_of_range_of turbidity tds ph temp)))
  /\ (forall k, ~ In k live_keys ->
                lookup k (snd out) = lookup k latest_sensor_data)
  /\ lookup "turbidity" (snd out) = Some (JFloat turbidity)
  /\ lookup "tds" (snd out) = Some (JFloat tds)
  /\ lookup "ph" (snd out) = Some (JFloat ph)
  /\ lookup "temperature" (snd out) = Some (JFloat temp)
  /\ lookup "last_reading_time" (snd out) = Some (JFloat now)
  /\ lookup "time" (snd out) = Some reading_time
  /\ lookup "out_of_range" (snd out)
     = Some (JList (out_of_range_of turbidity tds ph temp)).
Proof.
  cbv zeta. split.
  { eexists. split; reflexivity. }
  split.
  { intros k H. now apply update_keeps. }
  unfold update_sensor_reading, dict_update. cbn [snd fold_left fst].
  repeat split; rewrite !lookup_dict_set; reflexivity.
Qed.

(* ================================================================== *)
(** * The server: the chatbot *)
(* ================================================================== *)

Lemma faq_answer_in (faq : list (string * string)) (q text : string) :
  faq_answer faq q = Some text -> In text (map snd faq).
Proof.
  induction faq as [|[key t] faq IH]; [discriminate|].
  cbn [faq_answer map snd]. destruct (Str.contains key q).
  - intros [= ->]. now left.
  - intros H. right. now apply IH.
Qed.

Lemma disease_asked_in (names : list string) (q disease : string) :
  disease_asked names q = Some disease -> In disease names.
Proof.
  induction names as [|name names IH]; [discriminate|].
  cbn [disease_asked]. destruct (Str.contains (Str.lower name) q).
  - intros [= ->]. now left.
  - intros H. right. now apply IH.
Qed.

Lemma faq_never_safe (text : string) :
  In text (map snd TRAINED_FAQ) -> text <> SAFE_TO_DRINK.
Proof.
  cbn [TRAINED_FAQ map snd In].
  intros H; repeat destruct H as [H|H]; try contradiction; subst text;
    discriminate.
Qed.

Lemma card_never_safe (disease : string) :
  In disease DISEASE_NAMES -> disease_card disease <> SAFE_TO_DRINK.
Proof.
  cbn [DISEASE_NAMES In].
  intros H; repeat destruct H as [H|H]; try contradiction; subst disease;
    vm_compute; discriminate.
Qed.

Lemma eq_str_eq (v : json) (s : string) :
  eq_str v s = true -> v = JStr s.
Proof.
  destruct v; try discriminate. cbn [eq_str]. intros H.
  apply String.eqb_eq in H. now subst.
Qed.

(** X19. The chatbot says that the water is safe to drink only when the
    stored quality is exactly the text "LOW RISK" and the question, a
    [str], names safety, drinking or consuming: not before a first
    prediction, when the quality is "Analyzing", and not when the key is
    missing. *)
Theorem safe_answer_needs_low_risk (question : json)
  (latest_sensor_data : list (string * json)) :
  generate_chat_response question latest_sensor_data = Ok SAFE_TO_DRINK ->
  lookup "quality" latest_sensor_data = Some (JStr "LOW RISK")
  /\ exists text,
       question = JStr text
       /\ let q := Str.lower (Str.strip text) in
          Str.contains "safe" q || Str.contains "drink" q
          || Str.contains "consume" q = true.
Proof.
  unfold generate_chat_response.
  destruct question as [| | | |text| |]; try discriminate.
  destruct (faq_answer TRAINED_FAQ (Str.lower (Str.strip text))) as [t|] eqn:Hf.
  { intros [= H]. apply faq_answer_in in Hf. now apply faq_never_safe in Hf. }
  destruct (disease_asked DISEASE_NAMES (Str.lower (Str.strip text)))
    as [d|] eqn:Hd.
  { intros [= H]. apply disease_asked_in in Hd.
    now apply card_never_safe in Hd. }
  destruct (Str.contains "what diseases" (Str.lower (Str.strip text))
            && Str.contains "cause" (Str.lower (Str.strip text))).
  { destruct (truthy (state_get latest_sensor_data "diseases" (JList []))).
    - destruct (join_json ", " _) as [names|e]; cbn [bind]; discriminate.
    - discriminate. }
  destruct (any_in ["prevent"; "precaution"; "avoid"] _).
  { intros H. vm_compute in H. discriminate H. }
  destruct (any_in ["treat"; "treatment"; "cure"] _).
  { intros H. vm_compute in H. discriminate H. }
  destruct (Str.contains "safe" _ || Str.contains "drink" _
            || Str.contains "consume" _) eqn:Hs; [|discriminate].
  destruct (eq_str (state_get latest_sensor_data "quality" (JStr "Unknown"))
              "LOW RISK") eqn:Hq.
  - intros _. apply eq_str_eq in Hq. split.
    + unfold state_get in Hq.
      destruct (lookup "quality" latest_sensor_data) as [v|];
        [now subst v|discriminate].
    + exists text. split; [reflexivity|exact Hs].
  - destruct (Json.contains "MEDIUM" _) as [[|]|e]; cbn [bind]; discriminate.
Qed.

Lemma safe_answer_needs_low_risk_witness :
  lookup "quality" [("quality", JStr "LOW RISK")] = Some (JStr "LOW RISK")
  /\ exists text,
       JStr "Is it safe?" = JStr text
       /\ let q := Str.lower (Str.strip text) in
          Str.contains "safe" q || Str.contains "drink" q
          || Str.contains "consume" q = true.
Proof.
  apply (@safe_answer_needs_low_risk (JStr "Is it safe?")
           [("quality", JStr "LOW RISK")]).
  vm_compute. reflexivity.
Defined.

Lemma safety_answer (text : string) (d : list (string * json)) (r : risk) :
  asks_about_safety (Str.lower (Str.strip text)) = true ->
  lookup "quality" d = Some (JStr (label_of r)) ->
  generate_chat_response (JStr text) d = Ok (verdict r).
Proof.
  unfold asks_about_safety, generate_chat_response, state_get.
  intros H Hq. rewrite Hq.
  destruct (faq_answer TRAINED_FAQ _); [discriminate|].
  destruct (disease_asked DISEASE_NAMES _); [discriminate|].
  apply andb_prop in H. destruct H as [H H4].
  apply andb_prop in H. destruct H as [H H3].
  apply andb_prop in H. destruct H as [H1 H2].
  apply negb_true_iff in H1, H2, H3.
  rewrite H1, H2, H3, H4.
  now destruct r.
Qed.

(** X20. The chatbot follows the last prediction. After
    [receive_sensor_data] has predicted and logged a batch as in X15, and
    after any number of live updates since, a question about safety is
    answered by the worst grade of that batch: safe to drink when every
    percentage is below 40, boil when the worst is medium, do not drink
    when some percentage is graded high. *)
Theorem chatbot_follows_last_prediction (predict : predictor)
  (turbidity tds ph temp : Float.float) (reading_time : json)
  (logged : result unit) (now : Float.float) (timestamp : string)
  (latest_sensor_data : list (string * json)) (row : list Float.float)
  (updates : list live) (text : string) :
  predict turbidity tds ph temp = Ok row ->
  (length row <= 10)%nat ->
  logged = Ok tt ->
  asks_about_safety (Str.lower (Str.strip text)) = true ->
  let state :=
    after_updates updates
      (snd (receive_sensor_data (Some predict) turbidity tds ph temp
              reading_time logged now timestamp latest_sensor_data)) in
  generate_chat_response (JStr text) state = Ok (verdict (worst_level row)).
Proof.
  intros Hp Hl -> Ha. cbv zeta.
  apply safety_answer; [exact Ha|].
  rewrite after_updates_keeps by (cbn; intuition discriminate).
  rewrite (@receive_sensor_data_served predict turbidity tds ph temp
             reading_time now timestamp latest_sensor_data row Hp Hl).
  reflexivity.
Qed.

Lemma chatbot_follows_last_prediction_witness :
  let predict : predictor :=
    fun _ _ _ _ => Ok [Float.of_int 60; Float.of_int 45; Float.of_int 10] in
  let row := [Float.of_int 60; Float.of_int 45; Float.of_int 10] in
  let updates :=
    [ {| live_turbidity := Float.of_int 1; live_tds := Float.of_int 100;
         live_ph := Float.of_int 7; live_temp := Float.of_int 20;
         live_time := JStr "12:00:02"; live_now := Float.of_int 2 |} ] in
  let state :=
    after_updates updates
      (snd (receive_sensor_data (Some predict) (Float.of_int 7)
              (Float.of_int 300) (Float.of_int 7) (Float.of_int 25)
              (JStr "12:00:00") (Ok tt) (Float.of_int 0)
              "2024-01-01 12:00:00" latest_sensor_data_start)) in
  generate_chat_response (JStr " Is it safe to drink? ") state
  = Ok (verdict (worst_level row)).
Proof.
  apply (@chatbot_follows_last_prediction
           (fun _ _ _ _ => Ok [Float.of_int 60; Float.of_int 45; Float.of_int 10])
           (Float.of_int 7) (Float.of_int 300) (Float.of_int 7)
           (Float.of_int 25) (JStr "12:00:00") (Ok tt) (Float.of_int 0)
           "2024-01-01 12:00:00" latest_sensor_data_start
           [Float.of_int 60; Float.of_int 45; Float.of_int 10]).
  - reflexivity.
  - simpl. lia.
  - reflexivity.
  - vm_compute. reflexivity.
Defined.

(* ================================================================== *)
(** * The server: chat requests and the stored state *)
(* ================================================================== *)

Lemma dict_set_same (k : string) (v : json) (d : list (string * json)) :
  lookup k d = Some v -> dict_set k v d = d.
Proof.
  induction d as [|[k0 v0] d IH]; [discriminate|].
  cbn [lookup dict_set]. destruct (String.eqb k k0).
  - now intros [= ->].
  - intros H. now rewrite IH.
Qed.

Lemma dict_set_stored (k : string) (default : json)
  (d : list (string * json)) :
  lookup k d <> None -> dict_set k (state_get d k default) d = d.
Proof.
  intros H. apply dict_set_same. unfold state_get.
  now destruct (lookup k d).
Qed.

Lemma get_dict (d : list (string * json)) (k : string) (default : json) :
  get (JDict d) k default = Ok (state_get d k default).
Proof. reflexivity. Qed.

Lemma has_keys_chat (d : list (string * json)) :
  has_keys chat_keys d = true ->
  lookup "turbidity" d <> None /\ lookup "tds" d <> None
  /\ lookup "ph" d <> None /\ lookup "temperature" d <> None
  /\ lookup "quality" d <> None /\ lookup "diseases" d <> None
  /\ lookup "disease_details" d <> None.
Proof.
  unfold has_keys, chat_keys. cbn [forallb]. intros H.
  repeat (apply andb_prop in H; destruct H as [?H H]).
  repeat split;
    match goal with
    | Hk : match lookup ?k d with _ => _ end = true |- lookup ?k d <> None =>
        destruct (lookup k d); [discriminate|discriminate Hk]
    end.
Qed.

(** X21. A chat request without [quality_data] reads the stored state
    and leaves it as it was, when the state holds the seven keys the
    endpoint writes (as it does from the start and after every posted
    reading): the answer is what [generate_chat_response] makes of the
    question and the stored state, and an exception under [Exception]
    from it is answered with status 400. *)
Theorem plain_chat_keeps_state (d : list (string * json)) (timestamp : string)
  (latest_sensor_data : list (string * json)) :
  plain_question (JDict d) = true ->
  has_keys chat_keys latest_sensor_data = true ->
  let question := state_get d "question" (JStr "") in
  let out := chat_with_ai (JDict d) timestamp latest_sensor_data in
  snd out = latest_sensor_data
  /\ fst out
     = match generate_chat_response question latest_sensor_data with
       | Ok response_text =>
           Ok (Success
                 (JDict [ ("status", JStr "success");
                          ("question", question);
                          ("answer", JStr response_text);
                          ("context", JDict latest_sensor_data);
                          ("timestamp", JStr timestamp) ]))
       | Raise e => refused e
       end.
Proof.
  intros Hq Hk. cbv zeta.
  destruct (has_keys_chat _ Hk) as (H1 & H2 & H3 & H4 & H5 & H6 & H7).
  unfold plain_question in Hq. apply negb_true_iff in Hq.
  unfold chat_with_ai. rewrite !get_dict. cbn [bind].
  unfold chat_context. rewrite Hq. cbn [bind].
  unfold chat_update. rewrite !get_dict. cbn [bind].
  change (state_get [("quality", ?v)] "quality" ?x) with v.
  change (state_get
            [("quality",
              state_get latest_sensor_data "quality" (JStr "Unknown"))]
            "quality"
            (state_get latest_sensor_data "quality" (JStr "Unknown")))
    with (state_get latest_sensor_data "quality" (JStr "Unknown")).
  change (state_get
            [("diseases", state_get latest_sensor_data "diseases" (JList []))]
            "diseases" (JList []))
    with (state_get latest_sensor_data "diseases" (JList [])).
  unfold dict_update. cbn [fold_left fst snd].
  rewrite !dict_set_stored by assumption.
  destruct (generate_chat_response _ latest_sensor_data); now split.
Qed.

Lemma plain_chat_keeps_state_witness :
  let d := [("question", JStr "Is it safe to drink?")] in
  let question := state_get d "question" (JStr "") in
  let out := chat_with_ai (JDict d) "2024-01-01 12:00:00"
               latest_sensor_data_start in
  snd out = latest_sensor_data_start
  /\ fst out
     = match generate_chat_response question latest_sensor_data_start with
       | Ok response_text =>
           Ok (Success
                 (JDict [ ("status", JStr "success");
                          ("question", question);
                          ("answer", JStr response_text);
                          ("context", JDict latest_sensor_data_start);
                          ("timestamp", JStr "2024-01-01 12:00:00") ]))
       | Raise e => refused e
       end.
Proof.
  apply (@plain_chat_keeps_state [("question", JStr "Is it safe to drink?")]
           "2024-01-01 12:00:00" latest_sensor_data_start).
  - reflexivity.
  - reflexivity.
Defined.

(** X22. A chat request that carries its own prediction overwrites the
    stored one: when [quality_data] holds a [prediction] with a
    [quality], and its [sensor_data] and [health_risks] are dicts or
    missing, that quality is what [latest_sensor_data] holds afterwards,
    whether the request is then answered or refused. *)
Theorem chat_stores_client_quality (d quality_data prediction
  : list (string * json)) (quality : json) (timestamp : string)
  (latest_sensor_data : list (string * json)) :
  lookup "quality_data" d = Some (JDict quality_data) ->
  quality_data <> [] ->
  dict_or_absent "sensor_data" quality_data = true ->
  dict_or_absent "health_risks" quality_data = true ->
  lookup "prediction" quality_data = Some (JDict prediction) ->
  lookup "quality" prediction = Some quality ->
  lookup "quality"
    (snd (chat_with_ai (JDict d) timestamp latest_sensor_data))
  = Some quality.
Proof.
  intros Hd Hne Hs Hh Hp Hq.
  unfold chat_with_ai. rewrite !get_dict. cbn [bind].
  replace (state_get d "quality_data" JNone) with (JDict quality_data)
    by (unfold state_get; now rewrite Hd).
  unfold chat_context.
  assert (truthy (JDict quality_data) = true) as ->
    by (destruct quality_data; [contradiction|reflexivity]).
  rewrite !get_dict. cbn [bind].
  unfold chat_update.
  unfold dict_or_absent in Hs, Hh.
  assert (exists sd, state_get quality_data "sensor_data"
                       (JDict latest_sensor_data) = JDict sd) as [sd ->].
  { unfold state_get.
    destruct (lookup "sensor_data" quality_data) as [[]|];
      try discriminate Hs; eexists; reflexivity. }
  assert (exists hr,
            state_get quality_data "health_risks"
              (JDict [("diseases",
                       state_get latest_sensor_data "diseases" (JList []))])
            = JDict hr) as [hr ->].
  { unfold state_get at 1.
    destruct (lookup "health_risks" quality_data) as [[]|];
      try discriminate Hh; eexists; reflexivity. }
  assert (state_get quality_data "prediction"
            (JDict [("quality",
                     state_get latest_sensor_data "quality" (JStr "Unknown"))])
          = JDict prediction) as ->
    by (unfold state_get at 1; now rewrite Hp).
  rewrite !get_dict. cbn [bind].
  assert (state_get prediction "quality"
            (state_get latest_sensor_data "quality" (JStr "Unknown"))
          = quality) as ->
    by (unfold state_get at 1; now rewrite Hq).
  match goal with
  | |- lookup _ (snd (match ?g with _ => _ end)) = _ => destruct g
  end; cbn [snd]; unfold dict_update; cbn [fold_left fst snd];
    rewrite !lookup_dict_set; reflexivity.
Qed.

Lemma chat_stores_client_quality_witness :
  lookup "quality"
    (snd (chat_with_ai
            (JDict [ ("question", JStr "Is it safe to drink?");
                     ("quality_data",
                      JDict [ ("prediction",
                               JDict [("quality", JStr "LOW RISK")]) ]) ])
            "2024-01-01 12:00:00" latest_sensor_data_start))
  = Some (JStr "LOW RISK").
Proof.
  apply (@chat_stores_client_quality
           [ ("question", JStr "Is it safe to drink?");
             ("quality_data",
              JDict [ ("prediction", JDict [("quality", JStr "LOW RISK")]) ]) ]
           [ ("prediction", JDict [("quality", JStr "LOW RISK")]) ]
           [ ("quality", JStr "LOW RISK") ]
           (JStr "LOW RISK") "2024-01-01 12:00:00" latest_sensor_data_start).
  - reflexivity.
  - discriminate.
  - reflexivity.
  - reflexivity.
  - reflexivity.
  - reflexivity.
Defined.
